(** * A todo REST service over a document store: model of [server.go]

    The program is five HTTP handlers registered on a Fiber application; each
    one turns a request into calls on the MongoDB driver and the driver's
    answer into a response.  The handlers below are transcribed from
    [server.go]; the library functions they call ([encoding/hex],
    [bson/primitive], [encoding/json], the [mongo] collection methods and the
    [fiber.Ctx] methods) are modelled after the libraries' documented
    behaviour, each in a module named after its package.  Requests are
    handled one at a time and carry JSON bodies; the store is one collection
    held in memory, behind a network that may fail any round trip. *)

From Stdlib Require Import List String Ascii NArith ZArith Bool Lia Permutation.
From Stdlib.Strings Require Import Byte.
Import ListNotations.

Local Open Scope string_scope.
Local Open Scope N_scope.
Local Open Scope list_scope.

(** ** Go values *)

(** [byte(v)]: conversion of an unsigned integer to a byte keeps the low
    eight bits. *)
Definition to_byte (v : N) : byte :=
  match Byte.of_N (v mod 256) with
  | Some b => b
  | None => x00
  end.

(** A slice value is either [nil] or a (possibly empty) backed sequence. *)
Inductive slice (A : Type) : Type :=
| nil_slice
| mk_slice (elems : list A).
Arguments nil_slice {A}.
Arguments mk_slice {A} elems.

(** ** [encoding/hex] *)
Module hex.

(** [fromHexChar]: value of one hexadecimal digit, either case. *)
Definition fromHexChar (c : ascii) : option N :=
  let n := N_of_ascii c in
  if (48 <=? n) && (n <=? 57) then Some (n - 48)
  else if (97 <=? n) && (n <=? 102) then Some (n - 97 + 10)
  else if (65 <=? n) && (n <=? 70) then Some (n - 65 + 10)
  else None.

(** [hex.DecodeString]: two digits per byte; an odd length or a character
    that is not a digit is an error. *)
Fixpoint DecodeString (s : string) : option (list byte) :=
  match s with
  | EmptyString => Some []
  | String _ EmptyString => None
  | String hi (String lo rest) =>
      match fromHexChar hi, fromHexChar lo with
      | Some a, Some b =>
          match DecodeString rest with
          | Some bs => Some (to_byte (N.lor (N.shiftl a 4) b) :: bs)
          | None => None
          end
      | _, _ => None
      end
  end.

Definition hextable : string := "0123456789abcdef".

Definition digit (n : N) : ascii :=
  match String.get (N.to_nat n) hextable with
  | Some c => c
  | None => "0"%char
  end.

(** [hex.EncodeToString]: lower-case digits, high nibble first. *)
Fixpoint EncodeToString (src : list byte) : string :=
  match src with
  | [] => EmptyString
  | v :: rest =>
      String (digit (N.shiftr (Byte.to_N v) 4))
        (String (digit (N.land (Byte.to_N v) 15)) (EncodeToString rest))
  end.

End hex.

(** ** [bson/primitive]: object identifiers *)
Module primitive.

(** [type ObjectID [12]byte]. *)
Inductive ObjectID : Type :=
| OID (b0 b1 b2 b3 b4 b5 b6 b7 b8 b9 b10 b11 : byte).

Definition bytes (o : ObjectID) : list byte :=
  match o with
  | OID b0 b1 b2 b3 b4 b5 b6 b7 b8 b9 b10 b11 =>
      [b0; b1; b2; b3; b4; b5; b6; b7; b8; b9; b10; b11]
  end.

(** [ObjectIDFromHex]: the string must be 24 characters long and decode
    as hexadecimal; [None] stands for the error result. *)
Definition ObjectIDFromHex (s : string) : option ObjectID :=
  if negb (Nat.eqb (String.length s) 24) then None
  else
    match hex.DecodeString s with
    | Some [b0; b1; b2; b3; b4; b5; b6; b7; b8; b9; b10; b11] =>
        Some (OID b0 b1 b2 b3 b4 b5 b6 b7 b8 b9 b10 b11)
    | _ => None
    end.

(** [ObjectID.Hex]. *)
Definition Hex (o : ObjectID) : string := hex.EncodeToString (bytes o).

Definition eqb (a b : ObjectID) : bool :=
  if list_eq_dec Byte.byte_eq_dec (bytes a) (bytes b) then true else false.

(** The five bytes drawn once per process. *)
Inductive ProcessUnique : Type :=
| PU (p0 p1 p2 p3 p4 : byte).

(** [NewObjectIDFromTimestamp], given the seconds of the timestamp and the
    value [atomic.AddUint32(&objectIDCounter, 1)] returned: four bytes of
    big-endian time, the process bytes, and [putUint24] of the counter. *)
Definition NewObjectIDFromTimestamp
    (unix : N) (pu : ProcessUnique) (counter : N) : ObjectID :=
  let ts := unix mod 2 ^ 32 in
  match pu with
  | PU p0 p1 p2 p3 p4 =>
      OID (to_byte (N.shiftr ts 24)) (to_byte (N.shiftr ts 16))
          (to_byte (N.shiftr ts 8)) (to_byte ts)
          p0 p1 p2 p3 p4
          (to_byte (N.shiftr counter 16)) (to_byte (N.shiftr counter 8))
          (to_byte counter)
  end.

(** The counter value held in the last three bytes of an identifier. *)
Definition counterOf (o : ObjectID) : N :=
  match o with
  | OID _ _ _ _ _ _ _ _ _ b9 b10 b11 =>
      Byte.to_N b9 * 65536 + Byte.to_N b10 * 256 + Byte.to_N b11
  end.

End primitive.

(** ** Go [error] values met by the handlers *)
Inductive error : Type :=
| ErrNoDocuments                      (* [mongo.ErrNoDocuments] *)
| CommandError (msg : string)         (* a round trip to the server failed *)
| WriteException (msg : string)       (* the server refused a write *)
| SyntaxError                         (* the body is not a JSON text *)
| UnmarshalTypeError (field : string) (* a value of the wrong type for a field *)
| ErrUnprocessableEntity.             (* [fiber.ErrUnprocessableEntity] *)

(** [err.Error()].  The text of a decoding error is the decoder's own and
    is not modelled: the name of the error stands in for it, and nothing
    below reads it. *)
Definition Error (e : error) : string :=
  match e with
  | ErrNoDocuments => "mongo: no documents in result"
  | CommandError msg => msg
  | WriteException msg => msg
  | SyntaxError => "SyntaxError"
  | UnmarshalTypeError f => String.append "UnmarshalTypeError " f
  | ErrUnprocessableEntity => "Unprocessable Entity"
  end.

(** [type Todo struct]. *)
Record Todo : Type := mkTodo {
  ID : string;          (* `json:"id,omitempty" bson:"_id,omitempty"` *)
  Text : string;        (* `json:"text"` *)
  Completed : bool      (* `json:"completed"` *)
}.

(** [new(Todo)], [&Todo{}]: the zero value. *)
Definition new_Todo : Todo := {| ID := ""; Text := ""; Completed := false |}.

(** ** JSON decoding and encoding, at the level of parsed documents

    The decoder behind [c.BodyParser] and the encoder behind [c.JSON] take
    and produce what [encoding/json] does for the [Todo] struct. *)
Module json.

#[local] Set Warnings "-register-all".
Inductive Value : Type :=
| JNull
| JBool (b : bool)
| JNumber (literal : string)
| JString (s : string)
| JArray (elems : list Value)
| JObject (members : list (string * Value)).

(** The JSON names of the fields of [Todo], from its struct tags. *)
Inductive Field : Type := F_id | F_text | F_completed.

Definition name (f : Field) : string :=
  match f with
  | F_id => "id"
  | F_text => "text"
  | F_completed => "completed"
  end.

Definition fields : list Field := [F_id; F_text; F_completed].

(** ASCII case folding; the field names hold no letter with a non-ASCII
    fold (k, s), so this is the decoder's [equalFold] on them. *)
Definition lower (c : ascii) : ascii :=
  let n := N_of_ascii c in
  if (65 <=? n) && (n <=? 90) then ascii_of_N (n + 32) else c.

Fixpoint toLower (s : string) : string :=
  match s with
  | EmptyString => EmptyString
  | String c rest => String (lower c) (toLower rest)
  end.

(** The field an object key is stored into: an exact match of the name,
    else the first match up to case; [None] when the key is skipped. *)
Definition fieldFor (key : string) : option Field :=
  match find (fun f => String.eqb (name f) key) fields with
  | Some f => Some f
  | None => find (fun f => String.eqb (name f) (toLower key)) fields
  end.

(** [d.saveError]: only the first error is kept. *)
Definition saveError (saved : option error) (e : error) : option error :=
  match saved with
  | Some _ => saved
  | None => Some e
  end.

(** Decoding one object member into the struct: [null] leaves the field
    as it is, a value of the field's type is stored, any other value is a
    type error and decoding goes on. *)
Definition member (key : string) (v : Value) (st : Todo * option error)
  : Todo * option error :=
  let (t, saved) := st in
  match fieldFor key with
  | None => st
  | Some f =>
      match f, v with
      | _, JNull => st
      | F_id, JString s =>
          ({| ID := s; Text := Text t; Completed := Completed t |}, saved)
      | F_text, JString s =>
          ({| ID := ID t; Text := s; Completed := Completed t |}, saved)
      | F_completed, JBool b =>
          ({| ID := ID t; Text := Text t; Completed := b |}, saved)
      | _, _ => (t, saveError saved (UnmarshalTypeError (name f)))
      end
  end.

(** The members are decoded in the order of the document, so that of two
    members for one field the later one wins. *)
Fixpoint object (members : list (string * Value)) (st : Todo * option error)
  : Todo * option error :=
  match members with
  | [] => st
  | (key, v) :: rest => object rest (member key v st)
  end.

(** [json.Unmarshal(data, out)] with [out] a [*Todo]; [data] is [None] when
    the bytes are not a JSON text. *)
Definition Unmarshal (data : option Value) (out : Todo)
  : Todo * option error :=
  match data with
  | None => (out, Some SyntaxError)
  | Some JNull => (out, None)
  | Some (JObject members) => object members (out, None)
  | Some _ => (out, Some (UnmarshalTypeError "Todo"))
  end.

(** [json.Marshal] of a [Todo]: [id] is left out when empty. *)
Definition Marshal (t : Todo) : Value :=
  JObject
    ((if String.eqb (ID t) "" then [] else [("id", JString (ID t))])
     ++ [("text", JString (Text t)); ("completed", JBool (Completed t))]).

(** [json.Marshal] of a [[]Todo]: a nil slice is [null]. *)
Definition MarshalSlice (s : slice Todo) : Value :=
  match s with
  | nil_slice => JNull
  | mk_slice elems => JArray (map Marshal elems)
  end.

End json.

(** ** The [mongo] driver and the server behind it

    One collection, [todos], whose documents have the three keys the
    program writes.  The world also holds what the driver keeps per process
    (the identifier counter and the process bytes), the clock, and the
    outcome of the coming round trips to the server: [Some msg] is a round
    trip that fails with that message, the command not having reached the
    server (a command that was carried out and whose reply was lost is not
    in the model).  The order of [todos] stands for the order in which the
    store hands its documents out.  [issued] and [sent] record the
    identifiers generated and the commands sent, most recent first; the
    program never reads them. *)
Module mongo.

Import primitive.

(** The value under [_id]: an ObjectID, or the string a struct with a
    non-empty [ID] field is marshalled with. *)
Inductive idValue : Type :=
| ObjectIDValue (o : ObjectID)
| StringValue (s : string).

Definition idValue_eqb (a b : idValue) : bool :=
  match a, b with
  | ObjectIDValue x, ObjectIDValue y => primitive.eqb x y
  | StringValue x, StringValue y => String.eqb x y
  | _, _ => false
  end.

Record Document : Type := mkDocument {
  _id : idValue;
  text : string;
  completed : bool
}.

Inductive Command : Type :=
| find
| getMore
| killCursors
| insert (d : Document)
| findOne (id : idValue)
| findAndModify (id : idValue) (new_text : string) (new_completed : bool)
| delete (id : idValue).

Record World : Type := mkWorld {
  todos : list Document;
  objectIDCounter : N;
  processUnique : ProcessUnique;
  clock : N;
  network : list (option string);
  issued : list ObjectID;
  sent : list Command
}.

(** The world once a command has gone to the server: the command is
    recorded and one outcome of the network is consumed. *)
Definition deliver (cmd : Command) (w : World) : World :=
  {| todos := todos w;
     objectIDCounter := objectIDCounter w;
     processUnique := processUnique w;
     clock := clock w;
     network := tl (network w);
     issued := issued w;
     sent := cmd :: sent w |}.

(** One round trip: the failure, if the network has one in store. *)
Definition roundTrip (cmd : Command) (w : World) : option error * World :=
  (match network w with
   | Some msg :: _ => Some (CommandError msg)
   | _ => None
   end,
   deliver cmd w).

(** A read whose round trip fails is sent once more (the driver's
    retryable reads).  When the second attempt fails too the read fails;
    the model returns the error of the second attempt, and no statement
    below depends on which of the two it is. *)
Definition retryRead (cmd : Command) (w : World) : option error * World :=
  let (failure, w1) := roundTrip cmd w in
  match failure with
  | Some _ => roundTrip cmd w1
  | None => (None, w1)
  end.

Definition setTodos (docs : list Document) (w : World) : World :=
  {| todos := docs;
     objectIDCounter := objectIDCounter w;
     processUnique := processUnique w;
     clock := clock w;
     network := network w;
     issued := issued w;
     sent := sent w |}.

(** [primitive.NewObjectID()]: the counter is a [uint32] incremented
    atomically, the timestamp is read from the clock. *)
Definition NewObjectID (w : World) : ObjectID * World :=
  let counter := (objectIDCounter w + 1) mod 2 ^ 32 in
  let oid := NewObjectIDFromTimestamp (clock w) (processUnique w) counter in
  (oid,
   {| todos := todos w;
      objectIDCounter := counter;
      processUnique := processUnique w;
      clock := clock w;
      network := network w;
      issued := oid :: issued w;
      sent := sent w |}).

Definition matches (id : idValue) (d : Document) : bool :=
  idValue_eqb (_id d) id.

(** The first document of the list that matches is replaced or removed. *)
Fixpoint updateFirst (id : idValue) (new_text : string) (new_completed : bool)
    (docs : list Document) : list Document :=
  match docs with
  | [] => []
  | d :: rest =>
      if matches id d
      then {| _id := _id d; text := new_text; completed := new_completed |}
           :: rest
      else d :: updateFirst id new_text new_completed rest
  end.

Fixpoint removeFirst (id : idValue) (docs : list Document) : list Document :=
  match docs with
  | [] => []
  | d :: rest => if matches id d then rest else d :: removeFirst id rest
  end.

(** The result of a query for one document: the document or the error. *)
Record SingleResult : Type := mkSingleResult {
  rdr : option Document;
  err : option error
}.

Record InsertOneResult : Type := { InsertedID : idValue }.
Record DeleteResult : Type := { DeletedCount : N }.

(** A cursor holds the first batch of the reply and what the server still
    has to send. *)
Record Cursor : Type := mkCursor {
  batch : list Document;
  pending : list Document
}.

Definition firstBatch : nat := 101.

(** Marshalling of a [Todo] for a write: [_id] is left out when [ID] is
    empty, and the driver then adds a generated ObjectID. *)
Definition ensureID (t : Todo) (w : World) : Document * World :=
  if String.eqb (ID t) ""
  then let (oid, w1) := NewObjectID w in
       ({| _id := ObjectIDValue oid; text := Text t;
           completed := Completed t |}, w1)
  else ({| _id := StringValue (ID t); text := Text t;
           completed := Completed t |}, w).

(** [Collection.InsertOne]: the server refuses a document whose [_id] is
    already in the collection (the [_id] index is unique). *)
Definition InsertOne (t : Todo) (w : World)
  : (InsertOneResult + error) * World :=
  let (d, w1) := ensureID t w in
  let (failure, w2) := roundTrip (insert d) w1 in
  match failure with
  | Some e => (inr e, w2)
  | None =>
      if existsb (matches (_id d)) (todos w2)
      then (inr (WriteException "E11000 duplicate key error"), w2)
      else (inl {| InsertedID := _id d |}, setTodos (todos w2 ++ [d]) w2)
  end.

(** [Collection.FindOne] for the filter [{_id: id}].  The result is a
    pointer that is never nil: a failure is carried inside it. *)
Definition FindOne (id : idValue) (w : World)
  : option SingleResult * World :=
  let (failure, w1) := retryRead (findOne id) w in
  match failure with
  | Some e => (Some {| rdr := None; err := Some e |}, w1)
  | None =>
      match List.find (matches id) (todos w1) with
      | Some d => (Some {| rdr := Some d; err := None |}, w1)
      | None => (Some {| rdr := None; err := Some ErrNoDocuments |}, w1)
      end
  end.

(** [Collection.FindOneAndUpdate] for the filter [{_id: id}] and the update
    [{$set: {text, completed}}]; the result holds the document as it was. *)
Definition FindOneAndUpdate (id : idValue) (new_text : string)
    (new_completed : bool) (w : World) : SingleResult * World :=
  let (failure, w1) :=
    roundTrip (findAndModify id new_text new_completed) w in
  match failure with
  | Some e => ({| rdr := None; err := Some e |}, w1)
  | None =>
      match List.find (matches id) (todos w1) with
      | Some d =>
          ({| rdr := Some d; err := None |},
           setTodos (updateFirst id new_text new_completed (todos w1)) w1)
      | None => ({| rdr := None; err := Some ErrNoDocuments |}, w1)
      end
  end.

(** [Collection.DeleteOne] for the filter [{_id: id}]. *)
Definition DeleteOne (id : idValue) (w : World)
  : (DeleteResult + error) * World :=
  let (failure, w1) := roundTrip (delete id) w in
  match failure with
  | Some e => (inr e, w1)
  | None =>
      if existsb (matches id) (todos w1)
      then (inl {| DeletedCount := 1 |},
            setTodos (removeFirst id (todos w1)) w1)
      else (inl {| DeletedCount := 0 |}, w1)
  end.

(** [Collection.Find] for the empty filter: the documents come in the
    order the collection holds them. *)
Definition Find (w : World) : (Cursor + error) * World :=
  let (failure, w1) := retryRead find w in
  match failure with
  | Some e => (inr e, w1)
  | None =>
      (inl {| batch := firstn firstBatch (todos w1);
              pending := skipn firstBatch (todos w1) |}, w1)
  end.

(** Decoding a document into a [Todo]: an ObjectID is stored into a
    string field as its hexadecimal form. *)
Definition decodeDocument (d : Document) : Todo :=
  {| ID := match _id d with
           | ObjectIDValue o => Hex o
           | StringValue s => s
           end;
     Text := text d;
     Completed := completed d |}.

(** [SingleResult.Decode(v)]: the error of the query is returned and [v]
    is left as it was. *)
Definition Decode (sr : SingleResult) (v : Todo) : Todo * option error :=
  match err sr with
  | Some e => (v, Some e)
  | None =>
      match rdr sr with
      | Some d => (decodeDocument d, None)
      | None => (v, Some ErrNoDocuments)
      end
  end.

(** [SingleResult.Err()]. *)
Definition Err (sr : SingleResult) : option error := err sr.

(** [Cursor.All(&results)]: the documents of the first batch, then those
    the server still holds, fetched by one more round trip, are appended
    from index 0 on; the slice is then cut to the number decoded.  The
    cursor is closed on the way out: when the fetch has failed the server
    still holds it, and a [killCursors] is sent, whose result is dropped. *)
Definition All (c : Cursor) (results : slice Todo) (w : World)
  : slice Todo * option error * World :=
  let cut (decoded : list Todo) :=
    match results, decoded with
    | nil_slice, [] => nil_slice
    | _, _ => mk_slice decoded
    end in
  match pending c with
  | [] => (cut (map decodeDocument (batch c)), None, w)
  | _ :: _ =>
      let (failure, w1) := roundTrip getMore w in
      match failure with
      | Some e =>
          (cut (map decodeDocument (batch c)), Some e,
           snd (roundTrip killCursors w1))
      | None => (cut (map decodeDocument (batch c ++ pending c)), None, w1)
      end
  end.

End mongo.

(** ** [fiber]: the request context *)
Module fiber.

(** A response body: raw text, or a marshalled JSON document. *)
Inductive Payload : Type :=
| Raw (s : string)
| Encoded (j : json.Value).

(** The part of [*fiber.Ctx] the handlers use: the [id] parameter of the
    route, the body (a JSON document when the request carries well-formed
    JSON, [None] otherwise), and the response being built. *)
Record Ctx : Type := mkCtx {
  param_id : string;
  request_body : option json.Value;
  status : N;
  body : Payload
}.

(** The context a handler starts from: status 200 and an empty body. *)
Definition acquire (param : string) (request : option json.Value) : Ctx :=
  {| param_id := param; request_body := request;
     status := 200; body := Raw "" |}.

(** [c.Params(key)]. *)
Definition Params (c : Ctx) (key : string) : string :=
  if String.eqb key "id" then param_id c else "".

(** [c.BodyParser(out)] for a JSON request. *)
Definition BodyParser (c : Ctx) (out : Todo) : Todo * option error :=
  json.Unmarshal (request_body c) out.

(** [c.Status(status)]. *)
Definition Status (code : N) (c : Ctx) : Ctx :=
  {| param_id := param_id c; request_body := request_body c;
     status := code; body := body c |}.

(** [c.SendString(body)]. *)
Definition SendString (s : string) (c : Ctx) : Ctx :=
  {| param_id := param_id c; request_body := request_body c;
     status := status c; body := Raw s |}.

(** [c.JSON(data)], given the marshalled data. *)
Definition JSON (j : json.Value) (c : Ctx) : Ctx :=
  {| param_id := param_id c; request_body := request_body c;
     status := status c; body := Encoded j |}.

(** [utils.StatusMessage], on the codes the program sends. *)
Definition StatusMessage (code : N) : string :=
  if code =? 200 then "OK"
  else if code =? 201 then "Created"
  else if code =? 204 then "No Content"
  else if code =? 400 then "Bad Request"
  else if code =? 404 then "Not Found"
  else if code =? 500 then "Internal Server Error"
  else "".

(** [c.SendStatus(status)]: the status text becomes the body when no body
    has been set. *)
Definition SendStatus (code : N) (c : Ctx) : Ctx :=
  let c1 := Status code c in
  match body c1 with
  | Raw "" => SendString (StatusMessage code) c1
  | _ => c1
  end.

(** What is written to the connection: the body of an informational, a 204
    and a 304 response is not sent ([ResponseHeader.mustSkipContentLength]
    of the server underneath). *)
Definition mustSkipBody (code : N) : bool :=
  if (code <? 100) || (code =? 200) then false
  else (code =? 304) || (code =? 204) || (code <? 200).

Definition written (c : Ctx) : option Payload :=
  if mustSkipBody (status c) then None else Some (body c).

End fiber.

(** ** The handlers of [main] *)

Import mongo fiber.

(** [app.Get("/", ...)] *)
Definition app_Get_root (c : Ctx) (w : World) : Ctx * World :=
  let (found, w1) := mongo.Find w in
  match found with
  | inr err => (SendString (Error err) (Status 500 c), w1)
  | inl cursor =>
      let todos : slice Todo := mk_slice [] in
      let '(todos, failure, w2) := mongo.All cursor todos w1 in
      match failure with
      | Some err => (SendString (Error err) (Status 500 c), w2)
      | None => (JSON (json.MarshalSlice todos) c, w2)
      end
  end.

(** [app.Post("/", ...)].  [Decode] is called on the result of [FindOne]
    without a nil check; the result is never nil, and the [None] case below
    only completes the match. *)
Definition app_Post_root (c : Ctx) (w : World) : Ctx * World :=
  let todo := new_Todo in
  let (todo, failure) := BodyParser c todo in
  match failure with
  | Some err => (SendString (Error err) (Status 400 c), w)
  | None =>
      let todo := {| ID := ""; Text := Text todo; Completed := Completed todo |} in
      let (insertionResult, w1) := mongo.InsertOne todo w in
      match insertionResult with
      | inr err => (SendString (Error err) (Status 500 c), w1)
      | inl insertionResult =>
          let (createdRecord, w2) :=
            mongo.FindOne (InsertedID insertionResult) w1 in
          let createdTodo := new_Todo in
          let createdTodo :=
            match createdRecord with
            | Some sr => fst (mongo.Decode sr createdTodo)
            | None => createdTodo
            end in
          (JSON (json.Marshal createdTodo) (Status 201 c), w2)
      end
  end.

(** [app.Get("/:id", ...)] *)
Definition app_Get_id (c : Ctx) (w : World) : Ctx * World :=
  let id := Params c "id" in
  match primitive.ObjectIDFromHex id with
  | None => (SendStatus 400 c, w)
  | Some todoId =>
      let (record, w1) := mongo.FindOne (ObjectIDValue todoId) w in
      match record with
      | None => (SendString "Not found" (Status 404 c), w1)
      | Some record =>
          let todo := new_Todo in
          let todo := fst (mongo.Decode record todo) in
          (JSON (json.Marshal todo) c, w1)
      end
  end.

(** [app.Put("/:id", ...)] *)
Definition app_Put_id (c : Ctx) (w : World) : Ctx * World :=
  let idParam := Params c "id" in
  match primitive.ObjectIDFromHex idParam with
  | None => (SendStatus 400 c, w)
  | Some todoID =>
      let todo := new_Todo in
      let (todo, failure) := BodyParser c todo in
      match failure with
      | Some err => (SendString (Error err) (Status 400 c), w)
      | None =>
          let (result, w1) :=
            mongo.FindOneAndUpdate (ObjectIDValue todoID)
              (Text todo) (Completed todo) w in
          match mongo.Err result with
          | Some ErrNoDocuments => (SendStatus 404 c, w1)
          | Some _ => (SendStatus 500 c, w1)
          | None =>
              let todo :=
                {| ID := idParam; Text := Text todo;
                   Completed := Completed todo |} in
              (JSON (json.Marshal todo) (Status 200 c), w1)
          end
      end
  end.

(** [app.Delete("/:id", ...)] *)
Definition app_Delete_id (c : Ctx) (w : World) : Ctx * World :=
  match primitive.ObjectIDFromHex (Params c "id") with
  | None => (SendStatus 400 c, w)
  | Some todoID =>
      let (result, w1) := mongo.DeleteOne (ObjectIDValue todoID) w in
      match result with
      | inr _ => (SendStatus 500 c, w1)
      | inl result =>
          if DeletedCount result <? 1
          then (SendStatus 404 c, w1)
          else (SendStatus 204 c, w1)
      end
  end.

(** ** Requests and the routes registered on the application *)

(** The five routes of the application with what each reads of the
    request.  A request that matches none of them reaches no handler. *)
Inductive Request : Type :=
| GET_root
| POST_root (payload : option json.Value)
| GET_id (id : string)
| PUT_id (id : string) (payload : option json.Value)
| DELETE_id (id : string).

Definition serve (r : Request) (w : World) : Ctx * World :=
  match r with
  | GET_root => app_Get_root (acquire "" None) w
  | POST_root payload => app_Post_root (acquire "" payload) w
  | GET_id id => app_Get_id (acquire id None) w
  | PUT_id id payload => app_Put_id (acquire id payload) w
  | DELETE_id id => app_Delete_id (acquire id None) w
  end.

(** ** Runs of the process *)

(** Between two requests the clock and the network move as they like. *)
Definition drift (now : N) (outcomes : list (option string)) (w : World)
  : World :=
  {| todos := todos w;
     objectIDCounter := objectIDCounter w;
     processUnique := processUnique w;
     clock := now;
     network := outcomes;
     issued := issued w;
     sent := sent w |}.

Definition hasObjectID (d : Document) : bool :=
  match _id d with
  | ObjectIDValue _ => true
  | StringValue _ => false
  end.

(** A process starts with no identifier generated and no command sent, on
    a collection that holds documents with ObjectID keys, each key once. *)
Definition starting (w : World) : Prop :=
  issued w = [] /\ sent w = [] /\
  forallb hasObjectID (todos w) = true /\
  NoDup (map _id (todos w)).

Inductive reachable : World -> Prop :=
| reach_start (w : World) : starting w -> reachable w
| reach_serve (r : Request) (w : World) :
    reachable w -> reachable (snd (serve r w))
| reach_drift (now : N) (outcomes : list (option string)) (w : World) :
    reachable w -> reachable (drift now outcomes w).

(** The next [n] round trips to the server succeed. *)
Definition up (n : nat) (w : World) : bool :=
  forallb (fun o => match o with None => true | Some _ => false end)
          (firstn n (network w)).

(** The identifiers a client sees for the records of the collection. *)
Definition ids (w : World) : list string :=
  map (fun d => ID (decodeDocument d)) (todos w).

(** ** The record shape, as the specification words it

    A JSON object is decodable into the record shape when every member
    whose key names a field of the record, up to case, carries a value of
    the type of the field or [null]; other members are not looked at. *)
Definition fitsField (f : json.Field) (v : json.Value) : bool :=
  match f, v with
  | _, json.JNull => true
  | json.F_id, json.JString _ => true
  | json.F_text, json.JString _ => true
  | json.F_completed, json.JBool _ => true
  | _, _ => false
  end.

Definition names (key : string) (f : json.Field) : bool :=
  String.eqb (json.toLower key) (json.name f).

Definition fitsMember (kv : string * json.Value) : bool :=
  forallb (fun f => implb (names (fst kv) f) (fitsField f (snd kv)))
          json.fields.

Definition fitsShape (members : list (string * json.Value)) : bool :=
  forallb fitsMember members.

(** The bodies decodable into the record: an object that fits the shape,
    or [null], which leaves the record as it is. *)
Definition decodable (payload : option json.Value) : bool :=
  match payload with
  | Some json.JNull => true
  | Some (json.JObject members) => fitsShape members
  | _ => false
  end.

(** A member for field [f] is present. *)
Definition mentions (f : json.Field) (members : list (string * json.Value))
  : bool :=
  existsb (fun kv => names (fst kv) f) members.

(** ** What a run of the process maintains

    The identifier generated [i] steps ago holds the value the counter had
    then: adding [i] to it gives the current counter, modulo [2^24].  The documents
    of the collection have ObjectID keys, each key once. *)
Definition countdown (w : World) : Prop :=
  forall (i : nat) (o : primitive.ObjectID),
    nth_error (issued w) i = Some o ->
    (primitive.counterOf o + N.of_nat i) mod 2 ^ 24
    = objectIDCounter w mod 2 ^ 24.

Definition sound (w : World) : Prop :=
  countdown w
  /\ forallb hasObjectID (todos w) = true
  /\ NoDup (map _id (todos w)).

(** The effect of one request on what the process and the collection
    hold: reads change nothing; an update rewrites the first match; a
    removal drops it; a creation generates one identifier and, unless the
    insert is refused, appends one document under it. *)
Inductive effect (w w' : World) : Prop :=
| effect_none :
    todos w' = todos w -> objectIDCounter w' = objectIDCounter w ->
    issued w' = issued w -> effect w w'
| effect_update (id : idValue) (x : string) (b : bool) :
    todos w' = updateFirst id x b (todos w) ->
    objectIDCounter w' = objectIDCounter w ->
    issued w' = issued w -> effect w w'
| effect_remove (id : idValue) :
    todos w' = removeFirst id (todos w) ->
    objectIDCounter w' = objectIDCounter w ->
    issued w' = issued w -> effect w w'
| effect_generate :
    todos w' = todos w ->
    objectIDCounter w' = (objectIDCounter w + 1) mod 2 ^ 32 ->
    issued w' = fst (NewObjectID w) :: issued w -> effect w w'
| effect_insert (x : string) (b : bool) :
    existsb (matches (ObjectIDValue (fst (NewObjectID w)))) (todos w) = false ->
    todos w' = todos w ++ [{| _id := ObjectIDValue (fst (NewObjectID w));
                              text := x; completed := b |}] ->
    objectIDCounter w' = (objectIDCounter w + 1) mod 2 ^ 32 ->
    issued w' = fst (NewObjectID w) :: issued w -> effect w w'.

(** ** Sample worlds and requests *)

Definition sample_process : primitive.ProcessUnique :=
  primitive.PU x9a x3c x51 x0e x77.

(** An empty collection, a process that has generated nothing yet. *)
Definition empty_world : World :=
  {| todos := [];
     objectIDCounter := 41;
     processUnique := sample_process;
     clock := 1600000000;
     network := [];
     issued := [];
     sent := [] |}.

Definition buy_milk : option json.Value :=
  Some (json.JObject [("text", json.JString "buy milk")]).

(** The empty collection after [POST /] of [buy_milk]. *)
Definition milk_world : World := snd (serve (POST_root buy_milk) empty_world).

Definition milk_id : string := "5f5e10009a3c510e7700002a".

(** A creation request that brings an id of its own. *)
Definition buy_milk_mine : option json.Value :=
  Some (json.JObject [("id", json.JString "mine");
                      ("text", json.JString "buy milk")]).

(** The empty collection behind a network that lets the insert through and
    drops the query that follows, and the second attempt at it. *)
Definition flaky_world : World :=
  drift 1600000000
        [None; Some "connection reset by peer"; Some "connection reset by peer"]
        empty_world.

(** ** The answers of each route

    The status codes a route can answer with, read off its handler. *)
Definition answers (r : Request) : list N :=
  match r with
  | GET_root => [200; 500]
  | POST_root _ => [201; 400; 500]
  | GET_id _ => [200; 400]
  | PUT_id _ _ => [200; 400; 404; 500]
  | DELETE_id _ => [204; 400; 404; 500]
  end.

(** The sixteen values of a hexadecimal digit. *)
Definition nibbles : list N := map N.of_nat (seq 0 16).

(** A byte put together from two digits gives them back. *)
Definition splits (a b : N) : bool :=
  let v := Byte.to_N (to_byte (N.lor (N.shiftl a 4) b)) in
  (N.shiftr v 4 =? a) && (N.land v 15 =? b).

(** The record of [buy_milk], completed. *)
Definition milk_done : option json.Value :=
  Some (json.JObject [("text", json.JString "buy milk");
                      ("completed", json.JBool true)]).

(** [milk_id] in upper case. *)
Definition MILK_ID : string := "5F5E10009A3C510E7700002A".

(** A store that fails the next two round trips. *)
Definition down_world : World :=
  drift 1600000060 [Some "connection reset by peer"; Some "EOF"] milk_world.

(** * Properties *)

(** ** Hexadecimal identifiers *)

Lemma decode_digits (b : byte) :
  hex.fromHexChar (hex.digit (N.shiftr (Byte.to_N b) 4)) = Some (N.shiftr (Byte.to_N b) 4)
  /\ hex.fromHexChar (hex.digit (N.land (Byte.to_N b) 15)) = Some (N.land (Byte.to_N b) 15)
  /\ to_byte (N.lor (N.shiftl (N.shiftr (Byte.to_N b) 4) 4)
                    (N.land (Byte.to_N b) 15)) = b.
Proof. destruct b; vm_compute; repeat split. Qed.

Lemma DecodeString_EncodeToString (l : list byte) :
  hex.DecodeString (hex.EncodeToString l) = Some l.
Proof.
  induction l as [|b l IH]; [reflexivity|].
  cbn [hex.EncodeToString hex.DecodeString].
  destruct (decode_digits b) as (Hhi & Hlo & Hb).
  rewrite Hhi, Hlo, IH, Hb. reflexivity.
Qed.

Lemma length_EncodeToString (l : list byte) :
  String.length (hex.EncodeToString l) = (2 * List.length l)%nat.
Proof.
  induction l as [|b l IH]; [reflexivity|].
  cbn [hex.EncodeToString String.length List.length]. lia.
Qed.

Lemma length_Hex (o : primitive.ObjectID) :
  String.length (primitive.Hex o) = 24%nat.
Proof. destruct o. reflexivity. Qed.

(** An identifier is read back from its hexadecimal form. *)
Lemma ObjectIDFromHex_Hex (o : primitive.ObjectID) :
  primitive.ObjectIDFromHex (primitive.Hex o) = Some o.
Proof.
  unfold primitive.ObjectIDFromHex.
  rewrite length_Hex. cbn [Nat.eqb negb].
  unfold primitive.Hex. rewrite DecodeString_EncodeToString.
  destruct o. reflexivity.
Qed.

Lemma Hex_inj (a b : primitive.ObjectID) :
  primitive.Hex a = primitive.Hex b -> a = b.
Proof.
  intros E. pose proof (ObjectIDFromHex_Hex a) as Ha.
  rewrite E, ObjectIDFromHex_Hex in Ha. congruence.
Qed.

Lemma Hex_nonempty (o : primitive.ObjectID) : primitive.Hex o <> "".
Proof.
  intros E. pose proof (length_Hex o) as L. rewrite E in L. discriminate.
Qed.

Lemma bytes_inj (a b : primitive.ObjectID) :
  primitive.bytes a = primitive.bytes b -> a = b.
Proof. destruct a, b. cbn. congruence. Qed.

Lemma oid_eqb_eq (a b : primitive.ObjectID) :
  primitive.eqb a b = true <-> a = b.
Proof.
  unfold primitive.eqb.
  destruct (list_eq_dec byte_eq_dec (primitive.bytes a) (primitive.bytes b)) as [E|E].
  - split; [intros _; now apply bytes_inj | reflexivity].
  - split; [discriminate | intros ->; contradiction].
Qed.

Lemma idValue_eqb_eq (a b : idValue) : idValue_eqb a b = true <-> a = b.
Proof.
  destruct a as [x|x], b as [y|y]; cbn.
  - rewrite oid_eqb_eq. split; congruence.
  - split; discriminate.
  - split; discriminate.
  - rewrite String.eqb_eq. split; congruence.
Qed.

Lemma idValue_eqb_refl (a : idValue) : idValue_eqb a a = true.
Proof. now apply idValue_eqb_eq. Qed.

(** ** Identifiers that are not well formed *)

Lemma serve_invalid_id
    (id : string) (payload : option json.Value) (w : World) (r : Request) :
  primitive.ObjectIDFromHex id = None ->
  In r [GET_id id; PUT_id id payload; DELETE_id id] ->
  serve r w = (SendStatus 400 (acquire id match r with
                                           | PUT_id _ p => p
                                           | _ => None
                                           end), w).
Proof.
  intros Hid Hr. cbn in Hr.
  destruct Hr as [<-|[<-|[<-|[]]]]; cbn [serve];
    unfold app_Get_id, app_Put_id, app_Delete_id;
    cbn [Params acquire param_id String.eqb Ascii.eqb Bool.eqb];
    rewrite Hid; reflexivity.
Qed.

(** C2. On [GET /:id], [PUT /:id] and [DELETE /:id], a path parameter that
    is not the hexadecimal form of an ObjectID is answered 400, not 404 and
    not 500, and the world is left as it was: no command is sent to the
    store. *)
Theorem invalid_id_is_bad_request
    (id : string) (payload : option json.Value) (w : World) (r : Request) :
  primitive.ObjectIDFromHex id = None ->
  In r [GET_id id; PUT_id id payload; DELETE_id id] ->
  status (fst (serve r w)) = 400
  /\ status (fst (serve r w)) <> 404
  /\ status (fst (serve r w)) <> 500
  /\ snd (serve r w) = w
  /\ sent (snd (serve r w)) = sent w.
Proof.
  intros Hid Hr.
  rewrite (serve_invalid_id id payload w r Hid Hr). cbn.
  repeat split; discriminate.
Qed.

Lemma invalid_id_is_bad_request_witness :
  status (fst (serve (PUT_id "not-an-id" buy_milk) milk_world)) = 400
  /\ snd (serve (PUT_id "not-an-id" buy_milk) milk_world) = milk_world.
Proof.
  destruct (invalid_id_is_bad_request "not-an-id" buy_milk milk_world
              (PUT_id "not-an-id" buy_milk)) as (H1 & _ & _ & H2 & _).
  - reflexivity.
  - cbn. auto.
  - split; [exact H1 | exact H2].
Defined.

(** ** Reading one record *)

(** A query for one document always yields a result value. *)
Lemma FindOne_not_nil (id : idValue) (w : World) :
  fst (FindOne id w) <> None.
Proof.
  unfold FindOne. destruct (retryRead (findOne id) w) as [[e|] w1]; cbn.
  - discriminate.
  - destruct (List.find (matches id) (todos w1)); discriminate.
Qed.

(** [GET /:id] answers every well-formed identifier with the status the
    context starts with, found or not. *)
Lemma app_Get_id_status (c : Ctx) (w : World) (o : primitive.ObjectID) :
  primitive.ObjectIDFromHex (param_id c) = Some o ->
  status (fst (app_Get_id c w)) = status c.
Proof.
  intros Hid. unfold app_Get_id. cbn [Params String.eqb Ascii.eqb Bool.eqb].
  rewrite Hid. unfold FindOne.
  destruct (retryRead (findOne (ObjectIDValue o)) w) as [[e|] w1]; cbn;
    [reflexivity|].
  destruct (List.find (matches (ObjectIDValue o)) (todos w1)); reflexivity.
Qed.

(** C1. At a well-formed identifier that no record of the collection has,
    [GET /:id] answers 200 with a zero-valued record, where 404 is
    expected: the query's result is never nil, so the [404] branch of the
    handler is not taken, and the error of [Decode] is dropped. *)
Theorem get_unknown_id_answers_200 :
  primitive.ObjectIDFromHex "000000000000000000000000"
  = Some (primitive.OID x00 x00 x00 x00 x00 x00 x00 x00 x00 x00 x00 x00)
  /\ List.find (matches (ObjectIDValue
                           (primitive.OID x00 x00 x00 x00 x00 x00
                                          x00 x00 x00 x00 x00 x00)))
               (todos milk_world) = None
  /\ status (fst (serve (GET_id "000000000000000000000000") milk_world)) = 200
  /\ body (fst (serve (GET_id "000000000000000000000000") milk_world))
     = Encoded (json.JObject [("text", json.JString "");
                              ("completed", json.JBool false)]).
Proof. repeat split. Qed.

(** ** Creating a record *)

(** C10. When the insert of [POST /] succeeds the answer is 201 whatever
    the query for the inserted record yields; when that query fails, the
    body is the zero-valued record: no id, empty text, not completed. *)
Theorem created_even_if_refetch_fails
    (payload : option json.Value) (w w1 w2 : World) (t : Todo)
    (res : InsertOneResult) (sr : SingleResult) :
  BodyParser (acquire "" payload) new_Todo = (t, None) ->
  InsertOne {| ID := ""; Text := Text t; Completed := Completed t |} w
  = (inl res, w1) ->
  FindOne (InsertedID res) w1 = (Some sr, w2) ->
  status (fst (serve (POST_root payload) w)) = 201
  /\ (err sr <> None ->
      body (fst (serve (POST_root payload) w)) = Encoded (json.Marshal new_Todo)
      /\ json.Marshal new_Todo
         = json.JObject [("text", json.JString "");
                         ("completed", json.JBool false)]).
Proof.
  intros Hparse Hins Hfind.
  cbn [serve]. unfold app_Post_root.
  rewrite Hparse, Hins, Hfind. cbn [fst status JSON Status body].
  split; [reflexivity|].
  intros Herr. split; [|reflexivity].
  unfold Decode. destruct (err sr); [reflexivity | contradiction].
Qed.

Lemma created_even_if_refetch_fails_witness :
  let w := drift 1600000000
                 [None; Some "connection reset by peer"; Some "EOF"]
                 empty_world in
  status (fst (serve (POST_root buy_milk) w)) = 201
  /\ body (fst (serve (POST_root buy_milk) w))
     = Encoded (json.JObject [("text", json.JString "");
                              ("completed", json.JBool false)]).
Proof.
  intros w.
  destruct (created_even_if_refetch_fails buy_milk w
              (snd (InsertOne {| ID := ""; Text := "buy milk"; Completed := false |} w))
              (snd (serve (POST_root buy_milk) w))
              {| ID := ""; Text := "buy milk"; Completed := false |}
              {| InsertedID := ObjectIDValue
                   (primitive.OID x5f x5e x10 x00 x9a x3c x51 x0e x77 x00 x00 x2a) |}
              {| rdr := None; err := Some (CommandError "EOF") |})
    as [H1 H2]; try reflexivity.
  split; [exact H1|].
  destruct H2 as [H2 H3]; [discriminate|].
  rewrite H2, H3. reflexivity.
Defined.

(** ** The driver calls in closed form *)

Lemma roundTrip_hd (cmd : Command) (w : World) :
  roundTrip cmd w
  = (option_map CommandError (hd None (network w)), deliver cmd w).
Proof.
  unfold roundTrip. destruct (network w) as [|[msg|] net]; reflexivity.
Qed.

Lemma retryRead_hd (cmd : Command) (w : World) :
  retryRead cmd w
  = match hd None (network w) with
    | None => (None, deliver cmd w)
    | Some _ =>
        (option_map CommandError (hd None (tl (network w))),
         deliver cmd (deliver cmd w))
    end.
Proof.
  unfold retryRead. rewrite roundTrip_hd.
  destruct (hd None (network w)); cbn [option_map]; [|reflexivity].
  now rewrite roundTrip_hd.
Qed.

Lemma retryRead_up (cmd : Command) (w : World) :
  hd None (network w) = None -> retryRead cmd w = (None, deliver cmd w).
Proof. intros H. now rewrite retryRead_hd, H. Qed.

(** A read leaves the collection and the driver's counter alone. *)
Lemma retryRead_frame (cmd : Command) (w : World) :
  todos (snd (retryRead cmd w)) = todos w
  /\ objectIDCounter (snd (retryRead cmd w)) = objectIDCounter w
  /\ issued (snd (retryRead cmd w)) = issued w
  /\ processUnique (snd (retryRead cmd w)) = processUnique w.
Proof.
  rewrite retryRead_hd. destruct (hd None (network w)); repeat split.
Qed.

Lemma up_hd (n : nat) (w : World) : up (S n) w = true -> hd None (network w) = None.
Proof.
  unfold up. destruct (network w) as [|[msg|] net]; cbn; congruence.
Qed.

Lemma up_tl (n : nat) (w : World) :
  up (S (S n)) w = true -> hd None (tl (network w)) = None.
Proof.
  unfold up. destruct (network w) as [|[msg|] [|[msg'|] net]]; cbn; congruence.
Qed.

Lemma InsertOne_fresh (t : Todo) (w : World) :
  ID t = "" ->
  let oid := fst (NewObjectID w) in
  let d := {| _id := ObjectIDValue oid; text := Text t;
              completed := Completed t |} in
  let w1 := deliver (insert d) (snd (NewObjectID w)) in
  InsertOne t w
  = match hd None (network w) with
    | Some msg => (inr (CommandError msg), w1)
    | None =>
        if existsb (matches (ObjectIDValue oid)) (todos w)
        then (inr (WriteException "E11000 duplicate key error"), w1)
        else (inl {| InsertedID := ObjectIDValue oid |},
              setTodos (todos w ++ [d]) w1)
    end.
Proof.
  intros Hid. unfold InsertOne, ensureID. rewrite Hid.
  cbn [String.eqb NewObjectID fst snd]. rewrite roundTrip_hd.
  cbn [network hd]. destruct (hd None (network w)); reflexivity.
Qed.

Lemma FindOne_hd (id : idValue) (w : World) :
  FindOne id w
  = (Some match fst (retryRead (findOne id) w) with
          | Some e => {| rdr := None; err := Some e |}
          | None =>
              match List.find (matches id) (todos w) with
              | Some d => {| rdr := Some d; err := None |}
              | None => {| rdr := None; err := Some ErrNoDocuments |}
              end
          end,
     snd (retryRead (findOne id) w)).
Proof.
  unfold FindOne.
  destruct (retryRead_frame (findOne id) w) as (Htodos & _).
  destruct (retryRead (findOne id) w) as [[e|] w1]; cbn [fst snd] in *;
    [reflexivity|].
  rewrite Htodos. destruct (List.find (matches id) (todos w)); reflexivity.
Qed.

Lemma find_app_fresh (id : idValue) (d : Document) (l : list Document) :
  existsb (matches id) l = false ->
  matches id d = true ->
  List.find (matches id) (l ++ [d]) = Some d.
Proof.
  intros Hl Hd. induction l as [|x l IH]; cbn in *.
  - now rewrite Hd.
  - apply orb_false_iff in Hl as [Hx Hl]. rewrite Hx. now apply IH.
Qed.

(** What [POST /] does once the body is parsed: the answer is 201 exactly
    when the insert went through, and then the document stored carries the
    identifier just generated. *)
Lemma app_Post_root_parsed (payload : option json.Value) (w : World) (t : Todo) :
  BodyParser (acquire "" payload) new_Todo = (t, None) ->
  let oid := fst (NewObjectID w) in
  let d := {| _id := ObjectIDValue oid; text := Text t;
              completed := Completed t |} in
  let w1 := deliver (insert d) (snd (NewObjectID w)) in
  let c := acquire "" payload in
  serve (POST_root payload) w
  = match hd None (network w) with
    | Some msg => (SendString msg (Status 500 c), w1)
    | None =>
        if existsb (matches (ObjectIDValue oid)) (todos w)
        then (SendString "E11000 duplicate key error" (Status 500 c), w1)
        else
          (JSON (json.Marshal
                   match fst (retryRead (findOne (ObjectIDValue oid))
                                        (setTodos (todos w ++ [d]) w1)) with
                   | Some _ => new_Todo
                   | None => decodeDocument d
                   end) (Status 201 c),
           snd (retryRead (findOne (ObjectIDValue oid))
                          (setTodos (todos w ++ [d]) w1)))
    end.
Proof.
  intros Hparse oid d w1 c. cbn [serve]. unfold app_Post_root.
  rewrite Hparse.
  rewrite (InsertOne_fresh {| ID := ""; Text := Text t; Completed := Completed t |} w eq_refl).
  cbn [Text Completed]. fold oid. fold d. fold w1.
  destruct (hd None (network w)) as [msg|]; [reflexivity|].
  destruct (existsb (matches (ObjectIDValue oid)) (todos w)) eqn:Hdup;
    [reflexivity|].
  cbn [InsertedID]. rewrite FindOne_hd.
  destruct (fst (retryRead _ _)) as [e|]; [reflexivity|].
  cbn [setTodos todos].
  rewrite (find_app_fresh _ d _ Hdup) by apply idValue_eqb_refl.
  reflexivity.
Qed.

Lemma app_Get_id_hd (id : string) (o : primitive.ObjectID) (w : World) :
  primitive.ObjectIDFromHex id = Some o ->
  serve (GET_id id) w
  = (JSON (json.Marshal
             match fst (retryRead (findOne (ObjectIDValue o)) w),
                   List.find (matches (ObjectIDValue o)) (todos w) with
             | None, Some d => decodeDocument d
             | _, _ => new_Todo
             end) (acquire id None),
     snd (retryRead (findOne (ObjectIDValue o)) w)).
Proof.
  intros Hid. cbn [serve]. unfold app_Get_id.
  cbn [Params acquire param_id String.eqb Ascii.eqb Bool.eqb].
  rewrite Hid, FindOne_hd.
  destruct (fst (retryRead _ w)) as [e|]; [reflexivity|].
  destruct (List.find (matches (ObjectIDValue o)) (todos w)); reflexivity.
Qed.

(** C3. A record created by [POST /] is read back by [GET /:id] at the
    identifier the creation returned: the two answers carry the same
    record, identifier, text and completed flag (the flag of the request,
    [false] in particular).  The store is reachable for the three queries
    involved, and no other request comes in between. *)
Theorem post_then_get_round_trip
    (payload : option json.Value) (w : World) (t : Todo) :
  BodyParser (acquire "" payload) new_Todo = (t, None) ->
  up 2 w = true ->
  status (fst (serve (POST_root payload) w)) = 201 ->
  exists id : string,
    id <> ""
    /\ body (fst (serve (POST_root payload) w))
       = Encoded (json.Marshal {| ID := id; Text := Text t;
                                  Completed := Completed t |})
    /\ forall (now : N) (outcomes : list (option string)),
         hd None outcomes = None ->
         let w' := drift now outcomes (snd (serve (POST_root payload) w)) in
         status (fst (serve (GET_id id) w')) = 200
         /\ body (fst (serve (GET_id id) w'))
            = Encoded (json.Marshal {| ID := id; Text := Text t;
                                       Completed := Completed t |}).
Proof.
  intros Hparse Hup H201.
  rewrite (app_Post_root_parsed payload w t Hparse) in *.
  rewrite (up_hd _ _ Hup) in *.
  set (oid := fst (NewObjectID w)) in *.
  set (d := {| _id := ObjectIDValue oid; text := Text t;
               completed := Completed t |}) in *.
  destruct (existsb (matches (ObjectIDValue oid)) (todos w)) eqn:Hdup;
    [cbn in H201; discriminate|].
  rewrite retryRead_up by exact (up_tl _ _ Hup).
  exists (primitive.Hex oid). split; [apply Hex_nonempty|].
  split; [reflexivity|].
  intros now outcomes Hnet w'.
  rewrite (app_Get_id_hd _ oid w' (ObjectIDFromHex_Hex oid)).
  rewrite retryRead_up by exact Hnet.
  cbn [fst snd w' drift network todos deliver setTodos].
  rewrite (find_app_fresh _ d _ Hdup) by apply idValue_eqb_refl.
  split; reflexivity.
Qed.

Lemma post_then_get_round_trip_witness :
  exists id : string,
    id <> ""
    /\ body (fst (serve (POST_root buy_milk) empty_world))
       = Encoded (json.Marshal {| ID := id; Text := "buy milk";
                                  Completed := false |})
    /\ forall (now : N) (outcomes : list (option string)),
         hd None outcomes = None ->
         let w' := drift now outcomes (snd (serve (POST_root buy_milk) empty_world)) in
         status (fst (serve (GET_id id) w')) = 200
         /\ body (fst (serve (GET_id id) w'))
            = Encoded (json.Marshal {| ID := id; Text := "buy milk";
                                       Completed := false |}).
Proof.
  apply (post_then_get_round_trip buy_milk empty_world
           {| ID := ""; Text := "buy milk"; Completed := false |});
    reflexivity.
Defined.

(** ** What a request changes in the world *)

Lemma map_id_updateFirst (id : idValue) (x : string) (b : bool) (l : list Document) :
  map _id (updateFirst id x b l) = map _id l.
Proof.
  induction l as [|d l IH]; [reflexivity|].
  cbn [updateFirst]. destruct (matches id d); cbn [map _id]; congruence.
Qed.

Lemma removeFirst_split (id : idValue) (l : list Document) :
  existsb (matches id) l = true ->
  exists l1 d l2,
    l = l1 ++ d :: l2 /\ _id d = id
    /\ existsb (matches id) l1 = false
    /\ removeFirst id l = l1 ++ l2.
Proof.
  induction l as [|x l IH]; cbn [existsb removeFirst]; [discriminate|].
  destruct (matches id x) eqn:Hx.
  - intros _. exists [], x, l. cbn. repeat split.
    now apply idValue_eqb_eq.
  - cbn [orb]. intros H. destruct (IH H) as (l1 & d & l2 & E & Hd & Hl1 & Hr).
    exists (x :: l1), d, l2. cbn [existsb app]. rewrite Hx, Hl1, Hr, E.
    repeat split. exact Hd.
Qed.

Lemma updateFirst_split (id : idValue) (x : string) (b : bool) (l : list Document) :
  existsb (matches id) l = true ->
  exists l1 d l2,
    l = l1 ++ d :: l2 /\ _id d = id
    /\ existsb (matches id) l1 = false
    /\ List.find (matches id) l = Some d
    /\ updateFirst id x b l
       = l1 ++ {| _id := _id d; text := x; completed := b |} :: l2.
Proof.
  induction l as [|y l IH]; cbn [existsb updateFirst List.find]; [discriminate|].
  destruct (matches id y) eqn:Hy.
  - intros _. exists [], y, l. cbn. repeat split.
    now apply idValue_eqb_eq.
  - cbn [orb]. intros H.
    destruct (IH H) as (l1 & d & l2 & E & Hd & Hl1 & Hf & Hr).
    exists (y :: l1), d, l2. cbn [existsb app]. rewrite Hy, Hl1, Hr, Hf.
    rewrite E at 1. repeat split. exact Hd.
Qed.

Lemma find_existsb (id : idValue) (l : list Document) :
  List.find (matches id) l = None <-> existsb (matches id) l = false.
Proof.
  induction l as [|x l IH]; cbn; [tauto|].
  destruct (matches id x); cbn; [split; discriminate | exact IH].
Qed.

Lemma existsb_matches_In (id : idValue) (l : list Document) :
  existsb (matches id) l = true <-> In id (map _id l).
Proof.
  rewrite existsb_exists, in_map_iff. unfold matches.
  split; intros (d & H1 & H2).
  - exists d. split; [now apply idValue_eqb_eq | exact H1].
  - exists d. split; [exact H2 | now apply idValue_eqb_eq].
Qed.

Lemma Find_hd (w : World) :
  Find w
  = (match fst (retryRead find w) with
     | Some e => inr e
     | None => inl {| batch := firstn firstBatch (todos w);
                      pending := skipn firstBatch (todos w) |}
     end,
     snd (retryRead find w)).
Proof.
  unfold Find. destruct (retryRead_frame find w) as (Htodos & _).
  destruct (retryRead find w) as [[e|] w1]; cbn [fst snd] in *;
    [reflexivity|].
  now rewrite Htodos.
Qed.

(** Reading a cursor to its end leaves the collection and the driver's
    counter alone. *)
Lemma All_frame (c : Cursor) (results : slice Todo) (w : World) :
  todos (snd (All c results w)) = todos w
  /\ objectIDCounter (snd (All c results w)) = objectIDCounter w
  /\ issued (snd (All c results w)) = issued w.
Proof.
  unfold All. destruct (pending c); [repeat split|].
  rewrite roundTrip_hd. destruct (hd None (network w)); repeat split.
Qed.

Lemma serve_effect (r : Request) (w : World) : effect w (snd (serve r w)).
Proof.
  destruct r as [|payload|id|id payload|id].
  - cbn [serve]. unfold app_Get_root. rewrite Find_hd.
    destruct (retryRead_frame find w) as (Ht & Hc & Hi & _).
    destruct (fst (retryRead find w)); [now apply effect_none|].
    match goal with
    | |- context [All ?c ?r ?w1] =>
        destruct (All_frame c r w1) as (Ht' & Hc' & Hi');
        destruct (All c r w1) as [[sl [e|]] w2]
    end; cbn [snd] in *; apply effect_none; congruence.
  - destruct (BodyParser (acquire "" payload) new_Todo) as [t [e|]] eqn:Hparse.
    + cbn [serve]. unfold app_Post_root. rewrite Hparse. now apply effect_none.
    + rewrite (app_Post_root_parsed payload w t Hparse).
      destruct (hd None (network w)); [now apply effect_generate|].
      destruct (existsb _ (todos w)) eqn:Hdup; [now apply effect_generate|].
      cbn [snd].
      match goal with
      | |- context [retryRead ?cmd ?w1] =>
          destruct (retryRead_frame cmd w1) as (Ht & Hc & Hi & _)
      end.
      apply (effect_insert _ _ (Text t) (Completed t));
        [exact Hdup | now rewrite Ht | now rewrite Hc | now rewrite Hi].
  - destruct (primitive.ObjectIDFromHex id) as [o|] eqn:Hid.
    + rewrite (app_Get_id_hd id o w Hid). cbn [snd].
      destruct (retryRead_frame (findOne (ObjectIDValue o)) w)
        as (Ht & Hc & Hi & _).
      now apply effect_none.
    + cbn [serve]. unfold app_Get_id.
      cbn [Params acquire param_id String.eqb Ascii.eqb Bool.eqb].
      rewrite Hid. now apply effect_none.
  - cbn [serve].
    unfold app_Put_id. destruct (primitive.ObjectIDFromHex _) as [o|];
      [|now apply effect_none].
    destruct (BodyParser _ new_Todo) as [t [e|]]; [now apply effect_none|].
    unfold FindOneAndUpdate. rewrite roundTrip_hd.
    destruct (hd None (network w)); cbn [option_map]; [now apply effect_none|].
    cbn [deliver todos].
    destruct (List.find _ (todos w)); cbn [Err err];
      [|now apply effect_none].
    now apply (effect_update _ _ (ObjectIDValue o) (Text t) (Completed t)).
  - cbn [serve].
    unfold app_Delete_id. destruct (primitive.ObjectIDFromHex _) as [o|];
      [|now apply effect_none].
    unfold DeleteOne. rewrite roundTrip_hd.
    destruct (hd None (network w)); cbn [option_map]; [now apply effect_none|].
    cbn [deliver todos].
    destruct (existsb _ (todos w)); cbn [DeletedCount N.ltb N.compare];
      [|now apply effect_none].
    now apply (effect_remove _ _ (ObjectIDValue o)).
Qed.

(** ** The counter inside generated identifiers *)

Lemma to_N_to_byte (v : N) : Byte.to_N (to_byte v) = v mod 256.
Proof.
  unfold to_byte. destruct (Byte.of_N (v mod 256)) as [b|] eqn:E.
  - now apply Byte.to_of_N.
  - apply Byte.of_N_None_iff in E.
    pose proof (N.mod_upper_bound v 256). lia.
Qed.

Ltac euclid := zify; Z.to_euclidean_division_equations; lia.

Lemma counterOf_NewObjectIDFromTimestamp
    (unix : N) (pu : primitive.ProcessUnique) (counter : N) :
  primitive.counterOf (primitive.NewObjectIDFromTimestamp unix pu counter)
  = counter mod 2 ^ 24.
Proof.
  destruct pu. cbn [primitive.NewObjectIDFromTimestamp primitive.counterOf].
  rewrite !to_N_to_byte, !N.shiftr_div_pow2.
  change (2 ^ 16) with 65536. change (2 ^ 8) with 256.
  change (2 ^ 24) with 16777216.
  euclid.
Qed.

Lemma countdown_generate (w w' : World) :
  countdown w ->
  objectIDCounter w' = (objectIDCounter w + 1) mod 2 ^ 32 ->
  issued w' = fst (NewObjectID w) :: issued w ->
  countdown w'.
Proof.
  intros Hw Hc Hi i o. rewrite Hi, Hc. destruct i as [|i]; cbn [nth_error].
  - intros [= <-]. cbn [NewObjectID fst].
    rewrite counterOf_NewObjectIDFromTimestamp.
    change (2 ^ 32) with 4294967296. change (2 ^ 24) with 16777216.
    euclid.
  - intros Ho. specialize (Hw i o Ho). revert Hw.
    generalize (primitive.counterOf o) (objectIDCounter w).
    change (2 ^ 32) with 4294967296. change (2 ^ 24) with 16777216.
    intros co c Hw. euclid.
Qed.

(** An identifier about to be generated differs from the last [2^24 - 1]
    generated: their counter bytes differ. *)
Lemma fresh_among_issued (w : World) :
  countdown w ->
  N.of_nat (List.length (issued w)) < 2 ^ 24 ->
  ~ In (fst (NewObjectID w)) (issued w).
Proof.
  intros Hw Hlen Hin. apply In_nth_error in Hin as [i Hi].
  assert (Hlt : (i < List.length (issued w))%nat)
    by (apply nth_error_Some; congruence).
  specialize (Hw i _ Hi). cbn [NewObjectID fst] in Hw.
  rewrite counterOf_NewObjectIDFromTimestamp in Hw. revert Hw Hlen.
  generalize (objectIDCounter w).
  change (2 ^ 32) with 4294967296. change (2 ^ 24) with 16777216.
  intros c Hw Hlen. euclid.
Qed.

(** ** Worlds a run can reach *)

Lemma removeFirst_absent (id : idValue) (l : list Document) :
  existsb (matches id) l = false -> removeFirst id l = l.
Proof.
  induction l as [|d l IH]; cbn [existsb removeFirst]; [reflexivity|].
  destruct (matches id d); cbn [orb]; [discriminate|].
  intros H. now rewrite IH.
Qed.

Lemma hasObjectID_map (l : list Document) :
  forallb hasObjectID l
  = forallb (fun v => match v with
                      | ObjectIDValue _ => true
                      | StringValue _ => false
                      end) (map _id l).
Proof. induction l as [|d l IH]; cbn; [reflexivity | now rewrite IH]. Qed.

Lemma NoDup_drop_middle {A : Type} (l1 m l2 : list A) :
  NoDup (l1 ++ m ++ l2) -> NoDup (l1 ++ l2).
Proof.
  induction m as [|y m IH]; [trivial|].
  intros H. apply IH. cbn [app] in H. now apply NoDup_remove_1 in H.
Qed.

Lemma sound_effect (w w' : World) : sound w -> effect w w' -> sound w'.
Proof.
  intros (Hc & Ho & Hn) He. unfold sound.
  destruct He as [Ht Hk Hi|id x b Ht Hk Hi|id Ht Hk Hi|Ht Hk Hi|x b Hf Ht Hk Hi].
  - split; [|split; now rewrite Ht].
    intros i o. rewrite Hi, Hk. apply Hc.
  - split; [|split].
    + intros i o. rewrite Hi, Hk. apply Hc.
    + now rewrite hasObjectID_map, Ht, map_id_updateFirst, <- hasObjectID_map.
    + now rewrite Ht, map_id_updateFirst.
  - assert (Hs : exists l1 l2 d, todos w = l1 ++ d ++ l2 /\ todos w' = l1 ++ l2).
    { destruct (existsb (matches id) (todos w)) eqn:He.
      - destruct (removeFirst_split id _ He) as (l1 & d & l2 & E & _ & _ & Hr).
        exists l1, l2, [d]. now rewrite Ht, Hr.
      - exists (todos w), [], []. rewrite Ht, removeFirst_absent by exact He.
        now rewrite !app_nil_r. }
    destruct Hs as (l1 & l2 & d & E & E'). rewrite E in Ho, Hn. rewrite E'.
    split; [|split].
    + intros i o. rewrite Hi, Hk. apply Hc.
    + rewrite !forallb_app in *.
      apply andb_true_iff in Ho as [H1 H2].
      apply andb_true_iff in H2 as [_ H2]. now rewrite H1, H2.
    + rewrite !map_app in *. exact (NoDup_drop_middle _ _ _ Hn).
  - split; [|split; now rewrite Ht].
    now apply (countdown_generate w w').
  - split; [|split].
    + now apply (countdown_generate w w').
    + rewrite Ht, forallb_app, Ho. reflexivity.
    + rewrite Ht, map_app. cbn [map _id].
      apply (Permutation_NoDup (Permutation_cons_append _ _)).
      constructor; [|exact Hn].
      rewrite <- existsb_matches_In, Hf. discriminate.
Qed.

Lemma starting_sound (w : World) : starting w -> sound w.
Proof.
  intros (Hi & _ & Ho & Hn). split; [|split; [exact Ho|exact Hn]].
  intros i o. rewrite Hi. destruct i; discriminate.
Qed.

Lemma reachable_sound (w : World) : reachable w -> sound w.
Proof.
  induction 1 as [w Hs|r w _ IH|now outcomes w _ IH].
  - now apply starting_sound.
  - exact (sound_effect _ _ IH (serve_effect r w)).
  - exact IH.
Qed.

(** ** The identifier of a created record *)

Lemma not_in_ids (w : World) (o : primitive.ObjectID) :
  forallb hasObjectID (todos w) = true ->
  existsb (matches (ObjectIDValue o)) (todos w) = false ->
  ~ In (primitive.Hex o) (ids w).
Proof.
  intros Ho Hf Hin. unfold ids in Hin. apply in_map_iff in Hin as (d & Hd & Hin).
  rewrite forallb_forall in Ho. specialize (Ho d Hin).
  assert (He : existsb (matches (ObjectIDValue o)) (todos w) = true).
  { apply existsb_exists. exists d. split; [exact Hin|].
    unfold matches. apply idValue_eqb_eq.
    unfold hasObjectID in Ho. unfold decodeDocument in Hd. cbn [ID] in Hd.
    destruct (_id d) as [o'|]; [|discriminate].
    now rewrite (Hex_inj _ _ Hd). }
  congruence.
Qed.

(** C4. The id returned for an inserted record should never be empty.
    Here the insert goes through and the query for the inserted record
    fails, on the first attempt and on the driver's second: the record is
    in the collection under its generated key, and the answer is 201 with a
    record that has no id, because the error of [Decode] is dropped where
    the other driver calls of the file answer 500. *)
Lemma returned_id_may_be_empty :
  todos (snd (serve (POST_root buy_milk_mine) flaky_world))
  = [{| _id := ObjectIDValue
                 (primitive.OID x5f x5e x10 x00 x9a x3c x51 x0e x77 x00 x00 x2a);
        text := "buy milk"; completed := false |}]
  /\ status (fst (serve (POST_root buy_milk_mine) flaky_world)) = 201
  /\ body (fst (serve (POST_root buy_milk_mine) flaky_world))
     = Encoded (json.JObject [("text", json.JString "");
                              ("completed", json.JBool false)])
  /\ ~ (exists t : Todo,
           body (fst (serve (POST_root buy_milk_mine) flaky_world))
           = Encoded (json.Marshal t)
           /\ ID t <> "").
Proof.
  repeat split. intros (t & Hb & Hid).
  cbv in Hb. destruct t as [i x b]. cbn [ID] in Hid.
  destruct i as [|a i]; [now apply Hid|].
  unfold json.Marshal in Hb. cbn in Hb. discriminate.
Qed.

(** X17. [POST /] discards the id of the request: two bodies that parse
    to the same text and completed flag get the same answer and leave the
    same world, and the key of the stored document is the ObjectID the
    driver generates.  In a state a run reaches, when the answer is 201 and
    the query for the inserted record goes through at once, the id
    returned is the hexadecimal form of that ObjectID: it is not empty, no
    record of the collection has it, and no identifier generated before by
    the process has it, as long as fewer than [2^24] were. *)
Theorem created_id_is_assigned_by_store
    (payload payload' : option json.Value) (w : World) (t t' : Todo) :
  reachable w ->
  BodyParser (acquire "" payload) new_Todo = (t, None) ->
  BodyParser (acquire "" payload') new_Todo = (t', None) ->
  Text t' = Text t ->
  Completed t' = Completed t ->
  let c := fst (serve (POST_root payload) w) in
  let w1 := snd (serve (POST_root payload) w) in
  let oid := primitive.NewObjectIDFromTimestamp
               (clock w) (processUnique w)
               ((objectIDCounter w + 1) mod 2 ^ 32) in
  (status (fst (serve (POST_root payload') w)) = status c
   /\ body (fst (serve (POST_root payload') w)) = body c
   /\ snd (serve (POST_root payload') w) = w1)
  /\ (status c = 201 ->
      Permutation (todos w1)
                  ({| _id := ObjectIDValue oid; text := Text t;
                      completed := Completed t |} :: todos w)
      /\ (hd None (tl (network w)) = None ->
          body c = Encoded (json.Marshal {| ID := primitive.Hex oid;
                                            Text := Text t;
                                            Completed := Completed t |})
          /\ primitive.Hex oid <> ""
          /\ ~ In (primitive.Hex oid) (ids w)
          /\ (N.of_nat (List.length (issued w)) < 2 ^ 24 ->
              ~ In (primitive.Hex oid) (map primitive.Hex (issued w))))).
Proof.
  intros Hreach Hparse Hparse' Htext Hcompleted c w1 oid.
  destruct (reachable_sound w Hreach) as (Hcount & Hobj & _).
  subst c w1.
  rewrite (app_Post_root_parsed payload w t Hparse).
  rewrite (app_Post_root_parsed payload' w t' Hparse').
  rewrite Htext, Hcompleted.
  change (fst (NewObjectID w)) with oid.
  split.
  - destruct (hd None (network w)); [repeat split|].
    destruct (existsb (matches (ObjectIDValue oid)) (todos w)); repeat split.
  - destruct (hd None (network w)); [cbn; discriminate|].
    destruct (existsb (matches (ObjectIDValue oid)) (todos w)) eqn:Hfresh;
      [cbn; discriminate|].
    intros _. cbn [fst snd body JSON].
    match goal with
    | |- context [retryRead ?cmd ?w2] =>
        destruct (retryRead_frame cmd w2) as (Htodos & _)
    end.
    split.
    { rewrite Htodos. cbn [todos setTodos].
      apply Permutation_sym, Permutation_cons_append. }
    intros Hnet. rewrite retryRead_up by exact Hnet.
    split; [reflexivity|].
    split; [apply Hex_nonempty|].
    split; [now apply not_in_ids|].
    intros Hlen Hin. apply in_map_iff in Hin as (o & Ho & Hin).
    apply Hex_inj in Ho. subst o.
    exact (fresh_among_issued w Hcount Hlen Hin).
Qed.

Lemma created_id_is_assigned_by_store_witness :
  let c := fst (serve (POST_root buy_milk_mine) milk_world) in
  status c = 201
  /\ body c = Encoded (json.JObject
                         [("id", json.JString "5f5e10009a3c510e7700002b");
                          ("text", json.JString "buy milk");
                          ("completed", json.JBool false)])
  /\ ~ In "5f5e10009a3c510e7700002b" (ids milk_world)
  /\ ~ In "5f5e10009a3c510e7700002b" (map primitive.Hex (issued milk_world)).
Proof.
  assert (Hreach : reachable milk_world).
  { apply reach_serve, reach_start. repeat split. constructor. }
  destruct (created_id_is_assigned_by_store buy_milk_mine buy_milk milk_world
              {| ID := "mine"; Text := "buy milk"; Completed := false |}
              {| ID := ""; Text := "buy milk"; Completed := false |}
              Hreach eq_refl eq_refl eq_refl eq_refl) as [_ H].
  destruct (H eq_refl) as [_ H'].
  destruct (H' eq_refl) as (Hb & _ & Hids & Hissued).
  split; [reflexivity|]. split; [exact Hb|]. split; [exact Hids|].
  apply Hissued. reflexivity.
Defined.

(** ** Updating a record *)

Lemma ObjectIDFromHex_nonempty (id : string) (o : primitive.ObjectID) :
  primitive.ObjectIDFromHex id = Some o -> id <> "".
Proof. intros H ->. discriminate. Qed.

Lemma app_Put_id_hd (id : string) (payload : option json.Value) (w : World)
    (o : primitive.ObjectID) (t : Todo) :
  primitive.ObjectIDFromHex id = Some o ->
  BodyParser (acquire id payload) new_Todo = (t, None) ->
  let c := acquire id payload in
  let cmd := findAndModify (ObjectIDValue o) (Text t) (Completed t) in
  serve (PUT_id id payload) w
  = match hd None (network w) with
    | Some _ => (SendStatus 500 c, deliver cmd w)
    | None =>
        match List.find (matches (ObjectIDValue o)) (todos w) with
        | None => (SendStatus 404 c, deliver cmd w)
        | Some _ =>
            (JSON (json.Marshal {| ID := id; Text := Text t;
                                   Completed := Completed t |}) (Status 200 c),
             setTodos (updateFirst (ObjectIDValue o) (Text t) (Completed t)
                                   (todos w))
                      (deliver cmd w))
        end
    end.
Proof.
  intros Hid Hparse c cmd. cbn [serve]. unfold app_Put_id.
  cbn [Params acquire param_id String.eqb Ascii.eqb Bool.eqb].
  rewrite Hid. fold (acquire id payload). rewrite Hparse.
  unfold FindOneAndUpdate. rewrite roundTrip_hd.
  destruct (hd None (network w)); [reflexivity|].
  cbn [option_map deliver todos].
  destruct (List.find (matches (ObjectIDValue o)) (todos w)); reflexivity.
Qed.

(** C8. [PUT /:id] with a well-formed identifier and a body that parses:
    a failure of the store other than "no document" is answered 500; an
    identifier that matches no record, 404; otherwise the answer is 200
    with the record of the request under the identifier of the path. *)
Theorem put_answers
    (id : string) (payload : option json.Value) (w : World)
    (o : primitive.ObjectID) (t : Todo) :
  primitive.ObjectIDFromHex id = Some o ->
  BodyParser (acquire id payload) new_Todo = (t, None) ->
  let c := fst (serve (PUT_id id payload) w) in
  match hd None (network w),
        List.find (matches (ObjectIDValue o)) (todos w) with
  | Some _, _ => status c = 500
  | None, None => status c = 404
  | None, Some _ =>
      status c = 200
      /\ body c = Encoded (json.JObject [("id", json.JString id);
                                         ("text", json.JString (Text t));
                                         ("completed", json.JBool (Completed t))])
  end.
Proof.
  intros Hid Hparse c. subst c.
  rewrite (app_Put_id_hd id payload w o t Hid Hparse).
  destruct (hd None (network w)); [reflexivity|].
  destruct (List.find (matches (ObjectIDValue o)) (todos w)); [|reflexivity].
  split; [reflexivity|].
  cbn [fst body JSON]. unfold json.Marshal. cbn [ID Text Completed].
  destruct id as [|a id]; [discriminate|reflexivity].
Qed.

Lemma put_answers_witness :
  let c := fst (serve (PUT_id milk_id (Some (json.JObject
                         [("text", json.JString "buy milk");
                          ("completed", json.JBool true)]))) milk_world) in
  status c = 200
  /\ body c = Encoded (json.JObject [("id", json.JString milk_id);
                                     ("text", json.JString "buy milk");
                                     ("completed", json.JBool true)]).
Proof.
  exact (put_answers milk_id
           (Some (json.JObject [("text", json.JString "buy milk");
                                ("completed", json.JBool true)]))
           milk_world
           (primitive.OID x5f x5e x10 x00 x9a x3c x51 x0e x77 x00 x00 x2a)
           {| ID := ""; Text := "buy milk"; Completed := true |}
           eq_refl eq_refl).
Defined.

Lemma app_Put_id_200 (id : string) (payload : option json.Value) (w : World) :
  status (fst (serve (PUT_id id payload) w)) = 200 ->
  exists (o : primitive.ObjectID) (t : Todo),
    primitive.ObjectIDFromHex id = Some o
    /\ BodyParser (acquire id payload) new_Todo = (t, None)
    /\ hd None (network w) = None
    /\ existsb (matches (ObjectIDValue o)) (todos w) = true.
Proof.
  intros H200.
  destruct (primitive.ObjectIDFromHex id) as [o|] eqn:Hid.
  2:{ rewrite (serve_invalid_id id payload w (PUT_id id payload) Hid) in H200
        by (cbn; auto).
      discriminate. }
  destruct (BodyParser (acquire id payload) new_Todo) as [t [e|]] eqn:Hparse.
  { cbn [serve] in H200. unfold app_Put_id in H200.
    cbn [Params acquire param_id String.eqb Ascii.eqb Bool.eqb] in H200.
    rewrite Hid in H200. fold (acquire id payload) in H200.
    rewrite Hparse in H200. discriminate. }
  rewrite (app_Put_id_hd id payload w o t Hid Hparse) in H200.
  exists o, t. split; [reflexivity|]. split; [reflexivity|].
  destruct (hd None (network w)); [discriminate|]. split; [reflexivity|].
  destruct (existsb (matches (ObjectIDValue o)) (todos w)) eqn:He;
    [reflexivity|].
  apply find_existsb in He. rewrite He in H200. discriminate.
Qed.

(** C5. A [PUT /:id] answered 200 rewrites the text and the completed flag
    of the one record found under the identifier and nothing else: the
    record keeps its key, the records before and after it are untouched,
    and [GET /:id] at the same identifier then returns the record under the
    id it had. *)
Theorem put_overwrites_text_and_completed_only
    (id : string) (payload : option json.Value) (w : World) :
  status (fst (serve (PUT_id id payload) w)) = 200 ->
  exists (o : primitive.ObjectID) (t : Todo)
         (before : list Document) (d : Document) (after : list Document),
    primitive.ObjectIDFromHex id = Some o
    /\ BodyParser (acquire id payload) new_Todo = (t, None)
    /\ todos w = before ++ d :: after
    /\ _id d = ObjectIDValue o
    /\ existsb (matches (ObjectIDValue o)) before = false
    /\ todos (snd (serve (PUT_id id payload) w))
       = before ++ {| _id := _id d; text := Text t;
                      completed := Completed t |} :: after
    /\ map _id (todos (snd (serve (PUT_id id payload) w))) = map _id (todos w)
    /\ forall (now : N) (outcomes : list (option string)),
         hd None outcomes = None ->
         body (fst (serve (GET_id id) (drift now outcomes w)))
         = Encoded (json.Marshal {| ID := primitive.Hex o;
                                    Text := text d;
                                    Completed := completed d |})
         /\ body (fst (serve (GET_id id)
                         (drift now outcomes (snd (serve (PUT_id id payload) w)))))
            = Encoded (json.Marshal {| ID := primitive.Hex o;
                                       Text := Text t;
                                       Completed := Completed t |}).
Proof.
  intros H200.
  destruct (app_Put_id_200 id payload w H200) as (o & t & Hid & Hparse & Hnet & He).
  destruct (updateFirst_split (ObjectIDValue o) (Text t) (Completed t) _ He)
    as (before & d & after & E & Hd & Hbefore & Hfind & Hupd).
  exists o, t, before, d, after.
  rewrite (app_Put_id_hd id payload w o t Hid Hparse), Hnet, Hfind.
  cbn [snd setTodos todos].
  repeat (split; [assumption|]).
  split; [apply map_id_updateFirst|].
  intros now outcomes Hup.
  rewrite !(app_Get_id_hd id o _ Hid).
  rewrite !retryRead_up by exact Hup.
  cbn [fst body JSON drift network todos deliver].
  rewrite Hfind, Hupd.
  assert (Hm : matches (ObjectIDValue o)
                 {| _id := _id d; text := Text t; completed := Completed t |}
               = true)
    by (unfold matches; cbn [_id]; rewrite Hd; apply idValue_eqb_refl).
  assert (Hfind' :
            List.find (matches (ObjectIDValue o))
              (before ++ {| _id := _id d; text := Text t;
                            completed := Completed t |} :: after)
            = Some {| _id := _id d; text := Text t; completed := Completed t |}).
  { clear - Hbefore Hm. induction before as [|x l IH]; cbn in *.
    - now rewrite Hm.
    - apply orb_false_iff in Hbefore as [Hx Hl]. rewrite Hx. now apply IH. }
  cbn [todos setTodos]. rewrite Hfind'.
  unfold decodeDocument. cbn [_id text completed]. rewrite Hd.
  split; reflexivity.
Qed.

Lemma put_overwrites_text_and_completed_only_witness :
  exists (o : primitive.ObjectID) (t : Todo),
    primitive.ObjectIDFromHex milk_id = Some o
    /\ todos (snd (serve (PUT_id milk_id (Some (json.JObject
                            [("completed", json.JBool true)]))) milk_world))
       = [{| _id := ObjectIDValue o; text := Text t; completed := Completed t |}].
Proof.
  destruct (put_overwrites_text_and_completed_only milk_id
              (Some (json.JObject [("completed", json.JBool true)]))
              milk_world eq_refl)
    as (o & t & before & d & after & Hid & _ & _ & _ & _ & _ & _ & _).
  exists o, {| ID := ""; Text := ""; Completed := true |}.
  split; [exact Hid|].
  injection Hid as <-. reflexivity.
Defined.

(** ** Deleting a record *)

Lemma app_Delete_id_hd (id : string) (w : World) (o : primitive.ObjectID) :
  primitive.ObjectIDFromHex id = Some o ->
  let c := acquire id None in
  let cmd := delete (ObjectIDValue o) in
  serve (DELETE_id id) w
  = match hd None (network w) with
    | Some _ => (SendStatus 500 c, deliver cmd w)
    | None =>
        if existsb (matches (ObjectIDValue o)) (todos w)
        then (SendStatus 204 c,
              setTodos (removeFirst (ObjectIDValue o) (todos w)) (deliver cmd w))
        else (SendStatus 404 c, deliver cmd w)
    end.
Proof.
  intros Hid c cmd. cbn [serve]. unfold app_Delete_id.
  cbn [Params acquire param_id String.eqb Ascii.eqb Bool.eqb].
  rewrite Hid. unfold DeleteOne. rewrite roundTrip_hd.
  destruct (hd None (network w)); [reflexivity|].
  cbn [option_map deliver todos].
  destruct (existsb (matches (ObjectIDValue o)) (todos w)); reflexivity.
Qed.

(** C6. [DELETE /:id] with a well-formed identifier: a failure of the store
    is answered 500; an identifier that matches no record is answered 404,
    the collection being left as it is; otherwise one record, the first
    under that identifier, is removed and the answer is 204, written
    without a body.  Where keys are unique, no record is left under the
    identifier afterwards. *)
Theorem delete_answers (id : string) (w : World) (o : primitive.ObjectID) :
  primitive.ObjectIDFromHex id = Some o ->
  let c := fst (serve (DELETE_id id) w) in
  let w1 := snd (serve (DELETE_id id) w) in
  match hd None (network w),
        existsb (matches (ObjectIDValue o)) (todos w) with
  | Some _, _ => status c = 500 /\ todos w1 = todos w
  | None, false => status c = 404 /\ todos w1 = todos w
  | None, true =>
      status c = 204
      /\ written c = None
      /\ (exists (before : list Document) (d : Document) (after : list Document),
             todos w = before ++ d :: after
             /\ _id d = ObjectIDValue o
             /\ todos w1 = before ++ after)
      /\ (NoDup (map _id (todos w)) ->
          existsb (matches (ObjectIDValue o)) (todos w1) = false)
  end.
Proof.
  intros Hid c w1. subst c w1. rewrite (app_Delete_id_hd id w o Hid).
  destruct (hd None (network w)); [split; reflexivity|].
  destruct (existsb (matches (ObjectIDValue o)) (todos w)) eqn:He;
    [|split; reflexivity].
  split; [reflexivity|]. split; [reflexivity|].
  cbn [snd setTodos todos].
  destruct (removeFirst_split _ _ He) as (before & d & after & E & Hd & Hb & Hr).
  split.
  - exists before, d, after. now rewrite Hr.
  - rewrite Hr, E, map_app. cbn [map]. intros Hn.
    apply NoDup_remove_2 in Hn.
    destruct (existsb (matches (ObjectIDValue o)) (before ++ after)) eqn:Hex;
      [|reflexivity].
    exfalso. apply Hn. rewrite Hd, <- map_app. now apply existsb_matches_In.
Qed.

Lemma delete_answers_witness :
  status (fst (serve (DELETE_id milk_id) milk_world)) = 204
  /\ written (fst (serve (DELETE_id milk_id) milk_world)) = None
  /\ status (fst (serve (DELETE_id milk_id)
                    (snd (serve (DELETE_id milk_id) milk_world)))) = 404.
Proof.
  pose proof (delete_answers milk_id milk_world
                (primitive.OID x5f x5e x10 x00 x9a x3c x51 x0e x77 x00 x00 x2a)
                eq_refl) as H.
  cbv zeta in H.
  change (hd None (network milk_world)) with (@None string) in H.
  change (existsb _ (todos milk_world)) with true in H.
  destruct H as (H1 & H2 & _). split; [exact H1|]. split; [exact H2|].
  reflexivity.
Defined.

(** ** Listing the records *)

(** C9. [GET /] on a store that answers: with an empty collection the
    answer is 200 and its body the empty JSON array, not [null] and not an
    error; in general the answer is 200 and its body the array of the
    records of the collection, each once, in an order that is the store's
    to choose. *)
Theorem list_answers (w : World) :
  hd None (network w) = None ->
  let c := fst (serve GET_root w) in
  (todos w = [] -> status c = 200 /\ body c = Encoded (json.JArray []))
  /\ (hd None (tl (network w)) = None ->
      status c = 200
      /\ body c <> Encoded json.JNull
      /\ exists records : list Todo,
           body c = Encoded (json.JArray (map json.Marshal records))
           /\ Permutation records (map decodeDocument (todos w))).
Proof.
  intros Hup c. subst c. cbn [serve]. unfold app_Get_root, Find.
  rewrite (retryRead_up find w Hup).
  unfold All. cbn [batch pending deliver todos].
  destruct (skipn firstBatch (todos w)) as [|d rest] eqn:Hskip.
  - assert (Hall : firstn firstBatch (todos w) = todos w).
    { rewrite <- (firstn_skipn firstBatch (todos w)) at 2.
      now rewrite Hskip, app_nil_r. }
    rewrite Hall. cbn [fst status body JSON acquire json.MarshalSlice].
    split; [now intros ->|]. intros _.
    split; [reflexivity|]. split; [discriminate|].
    exists (map decodeDocument (todos w)). split; [reflexivity|].
    apply Permutation_refl.
  - split; [intros Hnil; rewrite Hnil in Hskip; discriminate|].
    intros Hmore. rewrite roundTrip_hd. cbn [deliver network].
    rewrite Hmore. cbn [option_map].
    rewrite <- Hskip, firstn_skipn.
    cbn [fst status body JSON acquire json.MarshalSlice].
    split; [reflexivity|]. split; [discriminate|].
    exists (map decodeDocument (todos w)). split; [reflexivity|].
    apply Permutation_refl.
Qed.

Lemma list_answers_witness :
  status (fst (serve GET_root empty_world)) = 200
  /\ body (fst (serve GET_root empty_world)) = Encoded (json.JArray []).
Proof.
  destruct (list_answers empty_world eq_refl) as (H & _).
  exact (H eq_refl).
Defined.

(** ** Parsing the body of a request *)

(** A key names at most one field, and the decoder stores the member into
    the field the key names up to case. *)
Lemma fieldFor_cases (key : string) :
  (json.fieldFor key = Some json.F_id
   /\ names key json.F_id = true /\ names key json.F_text = false
   /\ names key json.F_completed = false)
  \/ (json.fieldFor key = Some json.F_text
      /\ names key json.F_id = false /\ names key json.F_text = true
      /\ names key json.F_completed = false)
  \/ (json.fieldFor key = Some json.F_completed
      /\ names key json.F_id = false /\ names key json.F_text = false
      /\ names key json.F_completed = true)
  \/ (json.fieldFor key = None
      /\ names key json.F_id = false /\ names key json.F_text = false
      /\ names key json.F_completed = false).
Proof.
  unfold json.fieldFor, names, json.fields. cbn [List.find json.name].
  rewrite !(String.eqb_sym _ (json.toLower key)).
  destruct (String.eqb_spec "id" key) as [<-|H1].
  { left; repeat split. }
  destruct (String.eqb_spec "text" key) as [<-|H2].
  { right; left; repeat split. }
  destruct (String.eqb_spec "completed" key) as [<-|H3].
  { right; right; left; repeat split. }
  destruct (String.eqb_spec (json.toLower key) "id") as [E1|E1].
  { rewrite E1. left; repeat split. }
  destruct (String.eqb_spec (json.toLower key) "text") as [E2|E2].
  { rewrite E2. right; left; repeat split. }
  destruct (String.eqb_spec (json.toLower key) "completed") as [E3|E3].
  { right; right; left; repeat split. }
  right; right; right. repeat split.
Qed.

Lemma member_error (key : string) (v : json.Value) (t : Todo) (e : option error) :
  snd (json.member key v (t, e)) = None
  <-> e = None /\ fitsMember (key, v) = true.
Proof.
  unfold json.member, fitsMember, json.fields. cbn [forallb fst snd].
  destruct (fieldFor_cases key) as [H|[H|[H|H]]];
    destruct H as (-> & -> & -> & ->); cbn [implb andb];
    destruct v; cbn [fitsField snd json.saveError andb];
    try (destruct e; cbn [json.saveError]);
    split; try tauto; try discriminate; intros [? ?]; discriminate.
Qed.

Lemma member_keeps (key : string) (v : json.Value) (t : Todo) (e : option error) :
  (names key json.F_text = false ->
   Text (fst (json.member key v (t, e))) = Text t)
  /\ (names key json.F_completed = false ->
      Completed (fst (json.member key v (t, e))) = Completed t).
Proof.
  unfold json.member.
  destruct (fieldFor_cases key) as [H|[H|[H|H]]];
    destruct H as (-> & _ & -> & ->);
    destruct v; cbn; split; intros; try reflexivity; discriminate.
Qed.

Lemma object_error (members : list (string * json.Value)) (st : Todo * option error) :
  snd (json.object members st) = None
  <-> snd st = None /\ fitsShape members = true.
Proof.
  revert st. induction members as [|[key v] rest IH]; intros [t e].
  - cbn. tauto.
  - cbn [json.object]. rewrite IH.
    destruct (json.member key v (t, e)) as [t' e'] eqn:Hm.
    pose proof (member_error key v t e) as Hk. rewrite Hm in Hk.
    cbn [snd] in *. unfold fitsShape. cbn [forallb].
    fold (fitsShape rest). rewrite andb_true_iff. tauto.
Qed.

Lemma object_keeps (members : list (string * json.Value)) (st : Todo * option error) :
  (mentions json.F_text members = false ->
   Text (fst (json.object members st)) = Text (fst st))
  /\ (mentions json.F_completed members = false ->
      Completed (fst (json.object members st)) = Completed (fst st)).
Proof.
  revert st. induction members as [|[key v] rest IH]; intros [t e].
  - cbn. tauto.
  - cbn [json.object mentions existsb fst].
    destruct (IH (json.member key v (t, e))) as [IH1 IH2].
    destruct (member_keeps key v t e) as [H1 H2].
    split; intros H; apply orb_false_iff in H as [Hk Hr].
    + rewrite (IH1 Hr). apply (H1 Hk).
    + rewrite (IH2 Hr). apply (H2 Hk).
Qed.

Lemma BodyParser_decodable (id : string) (payload : option json.Value) :
  snd (BodyParser (acquire id payload) new_Todo) = None
  <-> decodable payload = true.
Proof.
  unfold BodyParser, json.Unmarshal, decodable. cbn [request_body acquire].
  destruct payload as [[| | | | |members]|]; cbn [snd];
    try (split; [discriminate|discriminate]); try tauto.
  rewrite object_error. cbn [snd]. tauto.
Qed.

(** C7. The body of [POST /] and [PUT /:id] is accepted whenever it is
    decodable into the record, with no field required: a member absent from
    the object leaves [completed] at [false] and [text] empty, and the
    request goes on to the store.  A body that is not decodable is answered
    400. *)
Theorem body_parsing_has_no_required_fields
    (id : string) (payload : option json.Value) (w : World) :
  (decodable payload = true ->
   exists t : Todo,
     BodyParser (acquire id payload) new_Todo = (t, None)
     /\ (forall members : list (string * json.Value),
            payload = Some (json.JObject members) ->
            (mentions json.F_completed members = false -> Completed t = false)
            /\ (mentions json.F_text members = false -> Text t = ""))
     /\ In (status (fst (serve (POST_root payload) w))) [201; 500]
     /\ (primitive.ObjectIDFromHex id <> None ->
         In (status (fst (serve (PUT_id id payload) w))) [200; 404; 500]))
  /\ (decodable payload = false ->
      status (fst (serve (POST_root payload) w)) = 400
      /\ status (fst (serve (PUT_id id payload) w)) = 400
      /\ snd (serve (POST_root payload) w) = w
      /\ snd (serve (PUT_id id payload) w) = w).
Proof.
  split.
  - intros Hdec.
    destruct (BodyParser (acquire id payload) new_Todo) as [t e] eqn:Hparse.
    assert (He : e = None).
    { apply (BodyParser_decodable id) in Hdec. now rewrite Hparse in Hdec. }
    subst e. exists t. split; [reflexivity|]. split; [|split].
    + intros members ->. unfold BodyParser, json.Unmarshal in Hparse.
      cbn [request_body acquire] in Hparse.
      destruct (object_keeps members (new_Todo, None)) as [Ht Hc].
      rewrite Hparse in Ht, Hc. cbn [fst] in Ht, Hc. split; assumption.
    + rewrite (app_Post_root_parsed payload w t Hparse).
      destruct (hd None (network w)); [cbn; auto|].
      destruct (existsb _ (todos w)); cbn; auto.
    + intros Hid. destruct (primitive.ObjectIDFromHex id) as [o|] eqn:Ho;
        [|contradiction].
      rewrite (app_Put_id_hd id payload w o t Ho Hparse).
      destruct (hd None (network w)); [cbn; auto|].
      destruct (List.find _ (todos w)); cbn; auto.
  - intros Hdec.
    assert (Hp : forall i, exists t e,
                 BodyParser (acquire i payload) new_Todo = (t, Some e)).
    { intros i.
      destruct (BodyParser (acquire i payload) new_Todo) as [t [e|]] eqn:Hparse;
        [now exists t, e|].
      assert (Hd : decodable payload = true)
        by (apply (BodyParser_decodable i); now rewrite Hparse).
      congruence. }
    destruct (Hp "") as (t0 & e0 & Hparse0).
    destruct (Hp id) as (t & e & Hparse).
    cbn [serve]. unfold app_Post_root, app_Put_id.
    cbn [Params acquire param_id String.eqb Ascii.eqb Bool.eqb].
    fold (acquire "" payload). fold (acquire id payload).
    rewrite Hparse0, Hparse.
    destruct (primitive.ObjectIDFromHex id); repeat split.
Qed.

Lemma body_parsing_has_no_required_fields_witness :
  (exists t : Todo,
      BodyParser (acquire milk_id (Some (json.JObject []))) new_Todo = (t, None)
      /\ Completed t = false /\ Text t = "")
  /\ status (fst (serve (POST_root (Some (json.JObject
               [("TEXT", json.JNumber "1")]))) empty_world)) = 400.
Proof.
  split.
  - destruct (body_parsing_has_no_required_fields milk_id
                (Some (json.JObject [])) empty_world) as [H _].
    destruct (H eq_refl) as (t & Hparse & Hdefaults & _).
    exists t. split; [exact Hparse|].
    destruct (Hdefaults [] eq_refl) as [Hc Ht].
    split; [exact (Hc eq_refl) | exact (Ht eq_refl)].
  - destruct (body_parsing_has_no_required_fields milk_id
                (Some (json.JObject [("TEXT", json.JNumber "1")]))
                empty_world) as [_ H].
    exact (proj1 (H eq_refl)).
Defined.

(** ** A session from creation to removal

    The record of [buy_milk] is created in the empty collection, read,
    completed, removed; reading it once more is answered 200 with a
    zero-valued record. *)
Example session :
  let completed_milk :=
    Some (json.JObject [("text", json.JString "buy milk");
                        ("completed", json.JBool true)]) in
  let (created, w1) := serve (POST_root buy_milk) empty_world in
  let (read, w2) := serve (GET_id milk_id) w1 in
  let (updated, w3) := serve (PUT_id milk_id completed_milk) w2 in
  let (removed, w4) := serve (DELETE_id milk_id) w3 in
  let (read_again, w5) := serve (GET_id milk_id) w4 in
  map status [created; read; updated; removed; read_again]
  = [201; 200; 200; 204; 200]
  /\ body created = Encoded (json.JObject [("id", json.JString milk_id);
                                           ("text", json.JString "buy milk");
                                           ("completed", json.JBool false)])
  /\ body read = body created
  /\ body updated = Encoded (json.JObject [("id", json.JString milk_id);
                                           ("text", json.JString "buy milk");
                                           ("completed", json.JBool true)])
  /\ written removed = None
  /\ todos w5 = [].
Proof. vm_compute. repeat split. Qed.


(** * Further properties of the handlers *)

(** ** The handlers in closed form *)

Lemma app_Get_root_hd (w : World) :
  let c := acquire "" None in
  let all := json.JArray (map json.Marshal (map decodeDocument (todos w))) in
  let w1 := snd (retryRead find w) in
  serve GET_root w
  = match fst (retryRead find w) with
    | Some e => (SendString (Error e) (Status 500 c), w1)
    | None =>
        match skipn firstBatch (todos w) with
        | [] => (JSON all c, w1)
        | _ :: _ =>
            match hd None (network w1) with
            | Some msg =>
                (SendString msg (Status 500 c),
                 deliver killCursors (deliver getMore w1))
            | None => (JSON all c, deliver getMore w1)
            end
        end
    end.
Proof.
  intros c all w1. cbn [serve]. unfold app_Get_root. rewrite Find_hd.
  fold w1. destruct (fst (retryRead find w)) as [e|]; [reflexivity|].
  unfold All. cbn [batch pending].
  destruct (skipn firstBatch (todos w)) as [|d rest] eqn:Hskip.
  - assert (Hall : firstn firstBatch (todos w) = todos w).
    { rewrite <- (firstn_skipn firstBatch (todos w)) at 2.
      now rewrite Hskip, app_nil_r. }
    now rewrite Hall.
  - rewrite roundTrip_hd.
    destruct (hd None (network w1)) as [msg|]; [reflexivity|].
    cbn [option_map]. now rewrite <- Hskip, firstn_skipn.
Qed.

Lemma app_Post_root_unparsed
    (payload : option json.Value) (w : World) (t : Todo) (e : error) :
  BodyParser (acquire "" payload) new_Todo = (t, Some e) ->
  serve (POST_root payload) w
  = (SendString (Error e) (Status 400 (acquire "" payload)), w).
Proof.
  intros Hparse. cbn [serve]. unfold app_Post_root. now rewrite Hparse.
Qed.

Lemma app_Put_id_unparsed
    (id : string) (payload : option json.Value) (w : World)
    (o : primitive.ObjectID) (t : Todo) (e : error) :
  primitive.ObjectIDFromHex id = Some o ->
  BodyParser (acquire id payload) new_Todo = (t, Some e) ->
  serve (PUT_id id payload) w
  = (SendString (Error e) (Status 400 (acquire id payload)), w).
Proof.
  intros Hid Hparse. cbn [serve]. unfold app_Put_id.
  cbn [Params acquire param_id String.eqb Ascii.eqb Bool.eqb].
  rewrite Hid. fold (acquire id payload). now rewrite Hparse.
Qed.

(** ** The answers of the routes *)

(** X1. Every route answers with one of the status codes of its handler
    and no other; in particular [GET /:id] answers neither 404 nor 500,
    whatever the store holds or does. *)
Theorem status_table (r : Request) (w : World) :
  In (status (fst (serve r w))) (answers r).
Proof.
  destruct r as [|payload|id|id payload|id]; cbn [answers].
  - rewrite app_Get_root_hd.
    destruct (fst (retryRead find w)); [cbn; auto|].
    destruct (skipn firstBatch (todos w)); [cbn; auto|].
    destruct (hd None (network _)); cbn; auto.
  - destruct (BodyParser (acquire "" payload) new_Todo) as [t [e|]] eqn:Hparse.
    + rewrite (app_Post_root_unparsed payload w t e Hparse). cbn; auto.
    + rewrite (app_Post_root_parsed payload w t Hparse).
      destruct (hd None (network w)); [cbn; auto|].
      destruct (existsb _ (todos w)); cbn; auto.
  - destruct (primitive.ObjectIDFromHex id) as [o|] eqn:Hid.
    + rewrite (app_Get_id_hd id o w Hid). cbn; auto.
    + rewrite (serve_invalid_id id None w (GET_id id) Hid) by (cbn; auto).
      cbn; auto.
  - destruct (primitive.ObjectIDFromHex id) as [o|] eqn:Hid.
    + destruct (BodyParser (acquire id payload) new_Todo) as [t [e|]] eqn:Hparse.
      * rewrite (app_Put_id_unparsed id payload w o t e Hid Hparse). cbn; auto.
      * rewrite (app_Put_id_hd id payload w o t Hid Hparse).
        destruct (hd None (network w)); [cbn; auto|].
        destruct (List.find _ (todos w)); cbn; auto.
    + rewrite (serve_invalid_id id payload w (PUT_id id payload) Hid)
        by (cbn; auto).
      cbn; auto.
  - destruct (primitive.ObjectIDFromHex id) as [o|] eqn:Hid.
    + rewrite (app_Delete_id_hd id w o Hid).
      destruct (hd None (network w)); [cbn; auto|].
      destruct (existsb _ (todos w)); cbn; auto.
    + rewrite (serve_invalid_id id None w (DELETE_id id) Hid) by (cbn; auto).
      cbn; auto.
Qed.

(** X2. [GET /:id] at a well-formed identifier hides every failure of the
    lookup: when the query fails on both attempts the driver makes, or no
    record is under the identifier, the answer is 200 with the zero-valued
    record, the same body a stored record with no text would give but for
    the id; the collection is not touched. *)
Theorem get_by_id_hides_failures
    (id : string) (o : primitive.ObjectID) (w : World) :
  primitive.ObjectIDFromHex id = Some o ->
  (hd None (network w) <> None /\ hd None (tl (network w)) <> None)
  \/ existsb (matches (ObjectIDValue o)) (todos w) = false ->
  status (fst (serve (GET_id id) w)) = 200
  /\ body (fst (serve (GET_id id) w))
     = Encoded (json.JObject [("text", json.JString "");
                              ("completed", json.JBool false)])
  /\ todos (snd (serve (GET_id id) w)) = todos w.
Proof.
  intros Hid Hfail. rewrite (app_Get_id_hd id o w Hid).
  destruct (retryRead_frame (findOne (ObjectIDValue o)) w) as (Htodos & _).
  cbn [fst snd status body JSON acquire].
  split; [reflexivity|]. split; [|exact Htodos].
  rewrite retryRead_hd.
  destruct Hfail as [[Hfirst Hsecond]|Habsent].
  - destruct (hd None (network w)) as [msg|]; [|contradiction].
    cbn [fst]. destruct (hd None (tl (network w))); [reflexivity|contradiction].
  - apply find_existsb in Habsent. rewrite Habsent.
    destruct (hd None (network w)) as [msg|]; cbn [fst]; [|reflexivity].
    destruct (option_map CommandError _); reflexivity.
Qed.

Lemma get_by_id_hides_failures_witness :
  status (fst (serve (GET_id milk_id) down_world)) = 200
  /\ body (fst (serve (GET_id milk_id) down_world))
     = Encoded (json.JObject [("text", json.JString "");
                              ("completed", json.JBool false)]).
Proof.
  destruct (get_by_id_hides_failures milk_id
              (primitive.OID x5f x5e x10 x00 x9a x3c x51 x0e x77 x00 x00 x2a)
              down_world eq_refl) as (H1 & H2 & _).
  - left. split; discriminate.
  - split; [exact H1 | exact H2].
Defined.

(** ** Identifiers in upper case *)

Lemma fromHexChar_digit (c : ascii) (n : N) :
  hex.fromHexChar c = Some n -> n < 16 /\ hex.digit n = json.lower c.
Proof.
  destruct c as [[] [] [] [] [] [] [] []]; vm_compute;
    intros H; try discriminate; injection H as <-; split; reflexivity.
Qed.

Lemma nibbles_split : forallb (fun a => forallb (splits a) nibbles) nibbles = true.
Proof. vm_compute. reflexivity. Qed.

Lemma In_nibbles (a : N) : a < 16 -> In a nibbles.
Proof.
  intros Ha. unfold nibbles. rewrite <- (N2Nat.id a).
  apply in_map, in_seq. lia.
Qed.

Lemma split_byte (a b : N) :
  a < 16 -> b < 16 ->
  N.shiftr (Byte.to_N (to_byte (N.lor (N.shiftl a 4) b))) 4 = a
  /\ N.land (Byte.to_N (to_byte (N.lor (N.shiftl a 4) b))) 15 = b.
Proof.
  intros Ha Hb. pose proof nibbles_split as H.
  rewrite forallb_forall in H. specialize (H a (In_nibbles a Ha)).
  rewrite forallb_forall in H. specialize (H b (In_nibbles b Hb)).
  unfold splits in H. apply andb_true_iff in H as [H1 H2].
  split; now apply N.eqb_eq.
Qed.

Lemma EncodeToString_DecodeString (n : nat) :
  forall (s : string) (l : list byte),
    (String.length s <= n)%nat ->
    hex.DecodeString s = Some l ->
    hex.EncodeToString l = json.toLower s.
Proof.
  induction n as [|n IH]; intros s l Hlen Hdec.
  - destruct s; [|cbn in Hlen; lia]. cbn in Hdec. now injection Hdec as <-.
  - destruct s as [|hi [|lo rest]]; cbn [hex.DecodeString] in Hdec.
    + now injection Hdec as <-.
    + discriminate.
    + destruct (hex.fromHexChar hi) as [a|] eqn:Hhi; [|discriminate].
      destruct (hex.fromHexChar lo) as [b|] eqn:Hlo; [|discriminate].
      destruct (hex.DecodeString rest) as [bs|] eqn:Hrest; [|discriminate].
      injection Hdec as <-.
      destruct (fromHexChar_digit hi a Hhi) as [Ha Hda].
      destruct (fromHexChar_digit lo b Hlo) as [Hb Hdb].
      destruct (split_byte a b Ha Hb) as [E1 E2].
      cbn [hex.EncodeToString json.toLower]. rewrite E1, E2, Hda, Hdb.
      rewrite (IH rest bs); [reflexivity| |exact Hrest].
      cbn [String.length] in Hlen. lia.
Qed.

(** The hexadecimal form of a parsed identifier is the string it was
    parsed from, in lower case. *)
Lemma Hex_ObjectIDFromHex (id : string) (o : primitive.ObjectID) :
  primitive.ObjectIDFromHex id = Some o ->
  primitive.Hex o = json.toLower id.
Proof.
  unfold primitive.ObjectIDFromHex.
  destruct (negb (Nat.eqb (String.length id) 24)); [discriminate|].
  destruct (hex.DecodeString id) as [l|] eqn:Hdec; [|discriminate].
  intros H. rewrite <- (EncodeToString_DecodeString _ id l (le_n _) Hdec).
  do 12 (destruct l as [|? l]; [discriminate|]).
  destruct l; [|discriminate]. now injection H as <-.
Qed.

Lemma ObjectIDFromHex_toLower (id : string) (o : primitive.ObjectID) :
  primitive.ObjectIDFromHex id = Some o ->
  primitive.ObjectIDFromHex (json.toLower id) = Some o.
Proof.
  intros H. rewrite <- (Hex_ObjectIDFromHex id o H).
  apply ObjectIDFromHex_Hex.
Qed.

(** X3. The identifier of a path is read without regard to the case of its
    digits: [GET /:id] and [DELETE /:id] answer a path and its lower-case
    form alike, and a record found by [GET /:id] is returned under the
    lower-case form of the path. *)
Theorem id_case_is_ignored (id : string) (o : primitive.ObjectID) (w : World) :
  primitive.ObjectIDFromHex id = Some o ->
  status (fst (serve (GET_id (json.toLower id)) w))
  = status (fst (serve (GET_id id) w))
  /\ body (fst (serve (GET_id (json.toLower id)) w))
     = body (fst (serve (GET_id id) w))
  /\ status (fst (serve (DELETE_id (json.toLower id)) w))
     = status (fst (serve (DELETE_id id) w))
  /\ snd (serve (DELETE_id (json.toLower id)) w) = snd (serve (DELETE_id id) w)
  /\ forall d : Document,
       hd None (network w) = None ->
       List.find (matches (ObjectIDValue o)) (todos w) = Some d ->
       body (fst (serve (GET_id id) w))
       = Encoded (json.Marshal {| ID := json.toLower id; Text := text d;
                                  Completed := completed d |}).
Proof.
  intros Hid. pose proof (ObjectIDFromHex_toLower id o Hid) as Hlow.
  rewrite (app_Get_id_hd _ o w Hlow), (app_Get_id_hd _ o w Hid).
  rewrite (app_Delete_id_hd _ w o Hlow), (app_Delete_id_hd _ w o Hid).
  split; [reflexivity|]. split; [reflexivity|].
  split; [destruct (hd None (network w)); [reflexivity|];
          destruct (existsb _ (todos w)); reflexivity|].
  split; [destruct (hd None (network w)); [reflexivity|];
          destruct (existsb _ (todos w)); reflexivity|].
  intros d Hnet Hfind. rewrite (retryRead_up _ w Hnet), Hfind.
  cbn [fst body JSON].
  unfold decodeDocument.
  assert (Hd : _id d = ObjectIDValue o).
  { apply find_some in Hfind as [_ Hm]. now apply idValue_eqb_eq. }
  rewrite Hd, (Hex_ObjectIDFromHex id o Hid). reflexivity.
Qed.

Lemma id_case_is_ignored_witness :
  body (fst (serve (GET_id MILK_ID) milk_world))
  = Encoded (json.JObject [("id", json.JString milk_id);
                           ("text", json.JString "buy milk");
                           ("completed", json.JBool false)])
  /\ status (fst (serve (DELETE_id MILK_ID) milk_world)) = 204.
Proof.
  destruct (id_case_is_ignored MILK_ID
              (primitive.OID x5f x5e x10 x00 x9a x3c x51 x0e x77 x00 x00 x2a)
              milk_world eq_refl) as (_ & _ & Hdel & _ & Hget).
  split.
  - rewrite (Hget {| _id := ObjectIDValue
                        (primitive.OID x5f x5e x10 x00 x9a x3c x51 x0e x77 x00 x00 x2a);
                     text := "buy milk"; completed := false |} eq_refl eq_refl).
    reflexivity.
  - rewrite <- Hdel. reflexivity.
Defined.

(** ** Updates, once more *)

Lemma find_updateFirst (id : idValue) (x : string) (b : bool) (l : list Document) :
  existsb (matches id) l = true ->
  List.find (matches id) (updateFirst id x b l)
  = Some {| _id := id; text := x; completed := b |}.
Proof.
  induction l as [|d l IH]; cbn [existsb updateFirst]; [discriminate|].
  destruct (matches id d) eqn:Hd.
  - intros _. cbn [List.find]. unfold matches at 1. cbn [_id].
    unfold matches in Hd. rewrite Hd. apply idValue_eqb_eq in Hd.
    now rewrite Hd.
  - cbn [orb List.find]. rewrite Hd. exact IH.
Qed.

Lemma updateFirst_twice (id : idValue) (x : string) (b : bool) (l : list Document) :
  updateFirst id x b (updateFirst id x b l) = updateFirst id x b l.
Proof.
  induction l as [|d l IH]; [reflexivity|].
  cbn [updateFirst]. destruct (matches id d) eqn:Hd; cbn [updateFirst].
  - unfold matches at 1. cbn [_id]. unfold matches in Hd. now rewrite Hd.
  - now rewrite Hd, IH.
Qed.

Lemma Marshal_ID (a b x : string) (c : bool) :
  a <> "" -> b <> "" ->
  Encoded (json.Marshal {| ID := a; Text := x; Completed := c |})
  = Encoded (json.Marshal {| ID := b; Text := x; Completed := c |}) ->
  a = b.
Proof.
  intros Ha Hb. unfold json.Marshal. cbn [ID Text Completed].
  destruct a as [|a0 a]; [contradiction|].
  destruct b as [|b0 b]; [contradiction|].
  cbn. congruence.
Qed.

(** X4. A successful [PUT /:id] answers with the record under the id as
    the path spells it, while the [GET /:id] that follows answers with the
    same text and completed flag under the id in lower case: the two
    bodies are the same exactly when the path is in lower case. *)
Theorem put_then_get (id : string) (payload : option json.Value) (w : World) :
  status (fst (serve (PUT_id id payload) w)) = 200 ->
  exists t : Todo,
    BodyParser (acquire id payload) new_Todo = (t, None)
    /\ body (fst (serve (PUT_id id payload) w))
       = Encoded (json.Marshal {| ID := id; Text := Text t;
                                  Completed := Completed t |})
    /\ forall (now : N) (outcomes : list (option string)),
         hd None outcomes = None ->
         let w' := drift now outcomes (snd (serve (PUT_id id payload) w)) in
         status (fst (serve (GET_id id) w')) = 200
         /\ body (fst (serve (GET_id id) w'))
            = Encoded (json.Marshal {| ID := json.toLower id; Text := Text t;
                                       Completed := Completed t |})
         /\ (body (fst (serve (GET_id id) w'))
             = body (fst (serve (PUT_id id payload) w))
             <-> json.toLower id = id).
Proof.
  intros H200.
  destruct (app_Put_id_200 id payload w H200) as (o & t & Hid & Hparse & Hnet & He).
  exists t. split; [exact Hparse|].
  rewrite (app_Put_id_hd id payload w o t Hid Hparse), Hnet.
  destruct (List.find (matches (ObjectIDValue o)) (todos w)) eqn:Hfind;
    [|apply find_existsb in Hfind; congruence].
  split; [reflexivity|].
  intros now outcomes Hup w'. subst w'.
  rewrite (app_Get_id_hd id o _ Hid).
  rewrite retryRead_up by exact Hup.
  cbn [fst snd status body JSON acquire drift network todos setTodos deliver].
  rewrite (find_updateFirst _ _ _ _ He).
  unfold decodeDocument. cbn [_id text completed].
  rewrite (Hex_ObjectIDFromHex id o Hid).
  split; [reflexivity|]. split; [reflexivity|].
  split.
  - intros E. apply Marshal_ID in E; [exact E| |].
    + rewrite <- (Hex_ObjectIDFromHex id o Hid). apply Hex_nonempty.
    + exact (ObjectIDFromHex_nonempty id o Hid).
  - intros ->. reflexivity.
Qed.

Lemma put_then_get_witness :
  exists t : Todo,
    body (fst (serve (PUT_id MILK_ID milk_done) milk_world))
    = Encoded (json.Marshal {| ID := MILK_ID; Text := Text t;
                               Completed := Completed t |})
    /\ body (fst (serve (GET_id MILK_ID)
                    (snd (serve (PUT_id MILK_ID milk_done) milk_world))))
       = Encoded (json.Marshal {| ID := milk_id; Text := Text t;
                                  Completed := Completed t |}).
Proof.
  destruct (put_then_get MILK_ID milk_done milk_world eq_refl)
    as (t & _ & Hput & Hget).
  exists t. split; [exact Hput|].
  exact (proj1 (proj2 (Hget 1600000000 [] eq_refl))).
Defined.

(** X5. [PUT /:id] is idempotent: a successful update sent once more to a
    store that answers is answered 200 with the same body and leaves the
    collection as the first left it. *)
Theorem put_twice (id : string) (payload : option json.Value) (w : World) :
  status (fst (serve (PUT_id id payload) w)) = 200 ->
  forall (now : N) (outcomes : list (option string)),
    hd None outcomes = None ->
    let w1 := snd (serve (PUT_id id payload) w) in
    let again := serve (PUT_id id payload) (drift now outcomes w1) in
    status (fst again) = 200
    /\ body (fst again) = body (fst (serve (PUT_id id payload) w))
    /\ todos (snd again) = todos w1.
Proof.
  intros H200 now outcomes Hup.
  destruct (app_Put_id_200 id payload w H200) as (o & t & Hid & Hparse & Hnet & He).
  cbv zeta.
  rewrite !(app_Put_id_hd id payload _ o t Hid Hparse), Hnet.
  destruct (List.find (matches (ObjectIDValue o)) (todos w)) eqn:Hfind;
    [|apply find_existsb in Hfind; congruence].
  cbn [fst snd drift network todos setTodos deliver].
  rewrite Hup, (find_updateFirst _ _ _ _ He).
  cbn [fst snd status body JSON Status todos setTodos].
  split; [reflexivity|]. split; [reflexivity|].
  apply updateFirst_twice.
Qed.

Lemma put_twice_witness :
  let w1 := snd (serve (PUT_id milk_id milk_done) milk_world) in
  status (fst (serve (PUT_id milk_id milk_done) w1)) = 200
  /\ todos (snd (serve (PUT_id milk_id milk_done) w1)) = todos w1.
Proof.
  destruct (put_twice milk_id milk_done milk_world eq_refl
              1600000000 [] eq_refl) as (H1 & _ & H3).
  split; [exact H1 | exact H3].
Defined.

(** X6. [PUT /:id] replaces both fields, sent or not: after a successful
    update whose body is an object without a [text] member the record has
    an empty text, and without a [completed] member it is not completed,
    whatever it held before. *)
Theorem put_resets_absent_fields
    (id : string) (members : list (string * json.Value)) (w : World)
    (o : primitive.ObjectID) :
  primitive.ObjectIDFromHex id = Some o ->
  status (fst (serve (PUT_id id (Some (json.JObject members))) w)) = 200 ->
  exists d : Document,
    List.find (matches (ObjectIDValue o))
              (todos (snd (serve (PUT_id id (Some (json.JObject members))) w)))
    = Some d
    /\ (mentions json.F_text members = false -> text d = "")
    /\ (mentions json.F_completed members = false -> completed d = false).
Proof.
  intros Hid H200.
  destruct (app_Put_id_200 _ _ w H200) as (o' & t & Hid' & Hparse & Hnet & He).
  rewrite Hid in Hid'. injection Hid' as <-.
  rewrite (app_Put_id_hd id _ w o t Hid Hparse), Hnet.
  destruct (List.find (matches (ObjectIDValue o)) (todos w)) eqn:Hfind;
    [|apply find_existsb in Hfind; congruence].
  cbn [snd todos setTodos]. rewrite (find_updateFirst _ _ _ _ He).
  eexists. split; [reflexivity|]. cbn [text completed].
  unfold BodyParser, json.Unmarshal in Hparse.
  cbn [request_body acquire] in Hparse.
  destruct (object_keeps members (new_Todo, None)) as [Ht Hc].
  rewrite Hparse in Ht, Hc. cbn [fst] in Ht, Hc. split; assumption.
Qed.

Lemma put_resets_absent_fields_witness :
  exists d : Document,
    List.find (matches (ObjectIDValue
                 (primitive.OID x5f x5e x10 x00 x9a x3c x51 x0e x77 x00 x00 x2a)))
      (todos (snd (serve (PUT_id milk_id (Some (json.JObject
                            [("completed", json.JBool true)]))) milk_world)))
    = Some d
    /\ text d = "".
Proof.
  destruct (put_resets_absent_fields milk_id [("completed", json.JBool true)]
              milk_world
              (primitive.OID x5f x5e x10 x00 x9a x3c x51 x0e x77 x00 x00 x2a)
              eq_refl eq_refl) as (d & Hd & Ht & _).
  exists d. split; [exact Hd | exact (Ht eq_refl)].
Defined.

(** ** The identifiers of the records *)

Lemma NoDup_map_on {A B : Type} (f : A -> B) (l : list A) :
  (forall x y, In x l -> In y l -> f x = f y -> x = y) ->
  NoDup l -> NoDup (map f l).
Proof.
  intros Hinj Hl. induction Hl as [|x l Hx Hl IH]; cbn [map]; constructor.
  - intros Hin. apply in_map_iff in Hin as (y & Hy & Hin).
    assert (y = x) by (apply Hinj; cbn; auto). now subst y.
  - apply IH. intros a b Ha Hb. apply Hinj; now right.
Qed.

Lemma hasObjectID_key (w : World) (d : Document) :
  forallb hasObjectID (todos w) = true ->
  In d (todos w) ->
  exists o : primitive.ObjectID,
    _id d = ObjectIDValue o /\ ID (decodeDocument d) = primitive.Hex o.
Proof.
  intros Hobj Hin. rewrite forallb_forall in Hobj. specialize (Hobj d Hin).
  unfold hasObjectID in Hobj. unfold decodeDocument. cbn [ID].
  destruct (_id d) as [o|]; [|discriminate]. now exists o.
Qed.

(** X7. In every state a run reaches, the records of the collection have
    pairwise different ids, and each id is the 24-digit lower-case form
    that the routes with an [:id] accept. *)
Theorem ids_stay_distinct (w : World) :
  reachable w ->
  NoDup (ids w)
  /\ forall id : string,
       In id (ids w) ->
       String.length id = 24%nat
       /\ json.toLower id = id
       /\ exists o : primitive.ObjectID, primitive.ObjectIDFromHex id = Some o.
Proof.
  intros Hreach. destruct (reachable_sound w Hreach) as (_ & Hobj & Hkeys).
  split.
  - unfold ids. apply NoDup_map_on.
    + intros x y Hx Hy E.
      destruct (hasObjectID_key w x Hobj Hx) as (ox & Hkx & Hix).
      destruct (hasObjectID_key w y Hobj Hy) as (oy & Hky & Hiy).
      rewrite Hix, Hiy in E. apply Hex_inj in E. subst oy.
      assert (Hk : _id x = _id y) by congruence.
      clear - Hkeys Hx Hy Hk. induction (todos w) as [|d l IH]; [easy|].
      cbn [map] in Hkeys. inversion Hkeys as [|? ? Hd Hl]; subst.
      destruct Hx as [->|Hx], Hy as [->|Hy]; [reflexivity| | |now apply IH].
      * exfalso. apply Hd. rewrite Hk. now apply in_map.
      * exfalso. apply Hd. rewrite <- Hk. now apply in_map.
    + exact (NoDup_map_inv _ _ Hkeys).
  - intros id Hin. unfold ids in Hin.
    apply in_map_iff in Hin as (d & <- & Hin).
    destruct (hasObjectID_key w d Hobj Hin) as (o & _ & ->).
    split; [apply length_Hex|]. split.
    + symmetry. exact (Hex_ObjectIDFromHex _ o (ObjectIDFromHex_Hex o)).
    + exists o. apply ObjectIDFromHex_Hex.
Qed.

Lemma ids_stay_distinct_witness :
  NoDup (ids (snd (serve (POST_root buy_milk_mine) milk_world))).
Proof.
  apply ids_stay_distinct.
  apply reach_serve, reach_serve, reach_start. repeat split. constructor.
Defined.

(** X8. Every id that [GET /] lists can be looked up: in a state a run
    reaches and with the store answering, [GET /:id] at an id of the
    collection answers 200 with a record of the collection that has this
    id, and no other record has it. *)
Theorem listed_ids_are_found (w : World) (id : string) :
  reachable w ->
  In id (ids w) ->
  hd None (network w) = None ->
  exists t : Todo,
    In t (map decodeDocument (todos w))
    /\ ID t = id
    /\ status (fst (serve (GET_id id) w)) = 200
    /\ body (fst (serve (GET_id id) w)) = Encoded (json.Marshal t)
    /\ forall t' : Todo,
         In t' (map decodeDocument (todos w)) -> ID t' = id -> t' = t.
Proof.
  intros Hreach Hin Hnet.
  destruct (reachable_sound w Hreach) as (_ & Hobj & Hkeys).
  unfold ids in Hin. apply in_map_iff in Hin as (d & <- & Hin).
  destruct (hasObjectID_key w d Hobj Hin) as (o & Hk & Hid).
  rewrite Hid, (app_Get_id_hd _ o w (ObjectIDFromHex_Hex o)).
  rewrite (retryRead_up _ w Hnet).
  assert (Hfind : List.find (matches (ObjectIDValue o)) (todos w) = Some d).
  { clear - Hkeys Hin Hk. induction (todos w) as [|x l IH]; [easy|].
    cbn [map] in Hkeys. inversion Hkeys as [|? ? Hx Hl]; subst.
    cbn [List.find]. destruct Hin as [->|Hin].
    - unfold matches. rewrite Hk. now rewrite idValue_eqb_refl.
    - destruct (matches (ObjectIDValue o) x) eqn:Hm; [|now apply IH].
      exfalso. apply Hx. unfold matches in Hm. apply idValue_eqb_eq in Hm.
      rewrite Hm, <- Hk. now apply in_map. }
  rewrite Hfind. exists (decodeDocument d).
  split; [now apply in_map|]. split; [exact Hid|].
  split; [reflexivity|]. split; [reflexivity|].
  intros t' Hin' Hid'. apply in_map_iff in Hin' as (d' & <- & Hin').
  destruct (hasObjectID_key w d' Hobj Hin') as (o' & Hk' & Hid'').
  rewrite Hid'' in Hid'. apply Hex_inj in Hid'. subst o'.
  f_equal. clear - Hkeys Hin Hin' Hk Hk'.
  induction (todos w) as [|x l IH]; [easy|].
  cbn [map] in Hkeys. inversion Hkeys as [|? ? Hx Hl]; subst.
  destruct Hin as [->|Hin], Hin' as [->|Hin']; [reflexivity| | |now apply IH].
  - exfalso. apply Hx. rewrite Hk, <- Hk'. now apply in_map.
  - exfalso. apply Hx. rewrite Hk', <- Hk. now apply in_map.
Qed.

Lemma listed_ids_are_found_witness :
  exists t : Todo,
    ID t = milk_id
    /\ body (fst (serve (GET_id milk_id) milk_world)) = Encoded (json.Marshal t).
Proof.
  assert (Hreach : reachable milk_world).
  { apply reach_serve, reach_start. repeat split. constructor. }
  destruct (listed_ids_are_found milk_world milk_id Hreach)
    as (t & _ & Hid & _ & Hbody & _).
  - cbn. auto.
  - reflexivity.
  - exists t. split; [exact Hid | exact Hbody].
Defined.

(** ** What each route leaves alone *)

(** X9. [POST /] adds one record or none and changes no other: an answer
    of 201 means the collection is what it was plus exactly one record,
    under an ObjectID key that no record had and holding the parsed text
    and completed flag; an answer of 400 means nothing was sent to the
    store and the collection is as it was. *)
Theorem post_adds_one_record (payload : option json.Value) (w : World) :
  let c := fst (serve (POST_root payload) w) in
  let w1 := snd (serve (POST_root payload) w) in
  (status c = 201 ->
   exists (t : Todo) (d : Document),
     BodyParser (acquire "" payload) new_Todo = (t, None)
     /\ Permutation (todos w1) (d :: todos w)
     /\ hasObjectID d = true
     /\ ~ In (_id d) (map _id (todos w))
     /\ text d = Text t
     /\ completed d = Completed t)
  /\ (status c = 400 -> w1 = w).
Proof.
  cbv zeta.
  destruct (BodyParser (acquire "" payload) new_Todo) as [t [e|]] eqn:Hparse.
  - rewrite (app_Post_root_unparsed payload w t e Hparse).
    split; [discriminate | reflexivity].
  - rewrite (app_Post_root_parsed payload w t Hparse).
    destruct (hd None (network w)); [split; discriminate|].
    destruct (existsb _ (todos w)) eqn:Hfresh; [split; discriminate|].
    split; [|discriminate].
    intros _. exists t. eexists. split; [reflexivity|]. cbn [snd].
    match goal with
    | |- context [retryRead ?cmd ?w2] =>
        destruct (retryRead_frame cmd w2) as (Htodos & _)
    end.
    rewrite Htodos. cbn [todos setTodos].
    split; [apply Permutation_sym, Permutation_cons_append|].
    split; [reflexivity|]. split; [|split; reflexivity].
    cbn [_id]. rewrite <- existsb_matches_In, Hfresh. discriminate.
Qed.

Lemma post_adds_one_record_witness :
  (exists d : Document,
      Permutation (todos (snd (serve (POST_root buy_milk_mine) milk_world)))
                  (d :: todos milk_world)
      /\ text d = "buy milk")
  /\ snd (serve (POST_root (Some (json.JArray []))) milk_world) = milk_world.
Proof.
  split.
  - destruct (proj1 (post_adds_one_record buy_milk_mine milk_world) eq_refl)
      as (t & d & Hparse & Htodos & _ & _ & Htext & _).
    exists d. split; [exact Htodos|].
    rewrite Htext. now injection Hparse as <-.
  - apply (proj2 (post_adds_one_record (Some (json.JArray [])) milk_world)).
    reflexivity.
Defined.

(** X10. [PUT /:id] neither adds nor removes a record, whatever it
    answers: the keys of the collection, in order, are as before, and a
    record under another key than the one of the path is still there. *)
Theorem put_keeps_keys (id : string) (payload : option json.Value) (w : World) :
  let w1 := snd (serve (PUT_id id payload) w) in
  map _id (todos w1) = map _id (todos w)
  /\ forall d : Document,
       In d (todos w) ->
       (forall o, primitive.ObjectIDFromHex id = Some o ->
                  _id d <> ObjectIDValue o) ->
       In d (todos w1).
Proof.
  cbv zeta.
  destruct (primitive.ObjectIDFromHex id) as [o|] eqn:Hid.
  2:{ rewrite (serve_invalid_id id payload w (PUT_id id payload) Hid)
        by (cbn; auto).
      split; [reflexivity | now intros d Hd _]. }
  destruct (BodyParser (acquire id payload) new_Todo) as [t [e|]] eqn:Hparse.
  { rewrite (app_Put_id_unparsed id payload w o t e Hid Hparse).
    split; [reflexivity | now intros d Hd _]. }
  rewrite (app_Put_id_hd id payload w o t Hid Hparse).
  destruct (hd None (network w)); [split; [reflexivity | now intros d Hd _]|].
  destruct (List.find _ (todos w)) as [found|];
    [|split; [reflexivity | now intros d Hd _]].
  cbn [snd todos setTodos]. split; [apply map_id_updateFirst|].
  intros d Hd Hother. specialize (Hother o eq_refl).
  induction (todos w) as [|x l IH]; [easy|].
  cbn [updateFirst]. destruct (matches (ObjectIDValue o) x) eqn:Hx.
  - destruct Hd as [->|Hd]; [|now right].
    exfalso. apply Hother. unfold matches in Hx. now apply idValue_eqb_eq.
  - destruct Hd as [->|Hd]; [now left | right; now apply IH].
Qed.

(** X11. [DELETE /:id] removes at most one record and changes none: the
    collection before is the collection afterwards plus at most one
    record, that record has the key of the path, an answer of 204 means a
    record was removed, and an answer of 404 or 400 means none was. *)
Theorem delete_removes_at_most_one (id : string) (w : World) :
  exists removed : list Document,
    Permutation (todos w) (removed ++ todos (snd (serve (DELETE_id id) w)))
    /\ (List.length removed <= 1)%nat
    /\ (status (fst (serve (DELETE_id id) w)) = 204 -> removed <> [])
    /\ (status (fst (serve (DELETE_id id) w)) = 404
        \/ status (fst (serve (DELETE_id id) w)) = 400 -> removed = [])
    /\ forall d : Document,
         In d removed ->
         exists o, primitive.ObjectIDFromHex id = Some o
                   /\ _id d = ObjectIDValue o.
Proof.
  assert (Hsame : forall c w1,
             status c <> 204 -> todos w1 = todos w ->
             exists removed : list Document,
               Permutation (todos w) (removed ++ todos w1)
               /\ (List.length removed <= 1)%nat
               /\ (status c = 204 -> removed <> [])
               /\ (status c = 404 \/ status c = 400 -> removed = [])
               /\ forall d : Document,
                    In d removed ->
                    exists o, primitive.ObjectIDFromHex id = Some o
                              /\ _id d = ObjectIDValue o).
  { intros c w1 Hc Hw. exists []. rewrite Hw. cbn [app List.length].
    split; [apply Permutation_refl|]. split; [lia|].
    split; [intros H; now contradiction Hc|]. split; [reflexivity|].
    intros d []. }
  destruct (primitive.ObjectIDFromHex id) as [o|] eqn:Hid.
  2:{ rewrite (serve_invalid_id id None w (DELETE_id id) Hid) by (cbn; auto).
      apply Hsame; [discriminate | reflexivity]. }
  rewrite (app_Delete_id_hd id w o Hid).
  destruct (hd None (network w)); [apply Hsame; [discriminate|reflexivity]|].
  destruct (existsb (matches (ObjectIDValue o)) (todos w)) eqn:He;
    [|apply Hsame; [discriminate|reflexivity]].
  cbn [fst snd todos setTodos].
  destruct (removeFirst_split _ _ He) as (before & d & after & Hw & Hd & _ & Hr).
  exists [d]. rewrite Hr, Hw.
  split; [symmetry; apply (Permutation_middle before after d)|].
  split; [cbn; lia|]. split; [discriminate|].
  split; [intros [H|H]; discriminate|].
  intros d' [<-|[]]. now exists o.
Qed.

Lemma app_Delete_id_204 (id : string) (w : World) :
  status (fst (serve (DELETE_id id) w)) = 204 ->
  exists o : primitive.ObjectID,
    primitive.ObjectIDFromHex id = Some o
    /\ hd None (network w) = None
    /\ existsb (matches (ObjectIDValue o)) (todos w) = true.
Proof.
  intros H204.
  destruct (primitive.ObjectIDFromHex id) as [o|] eqn:Hid.
  2:{ rewrite (serve_invalid_id id None w (DELETE_id id) Hid) in H204
        by (cbn; auto).
      discriminate. }
  rewrite (app_Delete_id_hd id w o Hid) in H204. exists o.
  split; [reflexivity|].
  destruct (hd None (network w)); [discriminate|]. split; [reflexivity|].
  destruct (existsb _ (todos w)); [reflexivity | discriminate].
Qed.

(** X12. Where keys are unique, a record removed stays removed: after a
    [DELETE /:id] answered 204, the same request to a store that answers
    is answered 404 and changes nothing, and [GET /:id] no longer returns
    the record. *)
Theorem delete_twice (id : string) (w : World) :
  NoDup (map _id (todos w)) ->
  status (fst (serve (DELETE_id id) w)) = 204 ->
  forall (now : N) (outcomes : list (option string)),
    hd None outcomes = None ->
    let w1 := drift now outcomes (snd (serve (DELETE_id id) w)) in
    status (fst (serve (DELETE_id id) w1)) = 404
    /\ todos (snd (serve (DELETE_id id) w1)) = todos w1
    /\ body (fst (serve (GET_id id) w1))
       = Encoded (json.Marshal new_Todo).
Proof.
  intros Hkeys H204 now outcomes Hup.
  destruct (app_Delete_id_204 id w H204) as (o & Hid & Hnet & He).
  cbv zeta.
  rewrite (app_Delete_id_hd id _ o Hid), (app_Get_id_hd id o _ Hid).
  rewrite retryRead_up by exact Hup.
  rewrite (app_Delete_id_hd id w o Hid), Hnet, He.
  cbn [fst snd drift network todos setTodos deliver]. rewrite Hup.
  assert (Hgone : existsb (matches (ObjectIDValue o))
                    (removeFirst (ObjectIDValue o) (todos w)) = false).
  { destruct (removeFirst_split _ _ He) as (before & d & after & Hw & Hd & _ & Hr).
    rewrite Hr. rewrite Hw, map_app in Hkeys. cbn [map] in Hkeys.
    apply NoDup_remove_2 in Hkeys.
    destruct (existsb _ (before ++ after)) eqn:Hex; [|reflexivity].
    exfalso. apply Hkeys. rewrite Hd, <- map_app.
    now apply existsb_matches_In. }
  rewrite Hgone. apply find_existsb in Hgone. rewrite Hgone.
  repeat split.
Qed.

Lemma delete_twice_witness :
  let w1 := snd (serve (DELETE_id milk_id) milk_world) in
  status (fst (serve (DELETE_id milk_id) w1)) = 404
  /\ body (fst (serve (GET_id milk_id) w1)) = Encoded (json.Marshal new_Todo).
Proof.
  assert (Hkeys : NoDup (map _id (todos milk_world))).
  { cbn. constructor; [intros [] | constructor]. }
  destruct (delete_twice milk_id milk_world Hkeys eq_refl
              1600000000 [] eq_refl) as (H1 & _ & H3).
  split; [exact H1 | exact H3].
Defined.

(** ** When the store cannot be reached *)

(** X13. When the two coming round trips to the store fail, the routes
    answer differently: [GET /] and [POST /] answer 500 with the message
    of a failure as body, [PUT /:id] and [DELETE /:id] answer 500 with the
    status text only, and [GET /:id] answers 200; the two reading routes
    leave the collection as it is. *)
Theorem store_failure_answers
    (r : Request) (w : World) (first second : string) :
  hd None (network w) = Some first ->
  hd None (tl (network w)) = Some second ->
  let c := fst (serve r w) in
  match r with
  | GET_root =>
      status c = 500
      /\ (body c = Raw first \/ body c = Raw second)
      /\ todos (snd (serve r w)) = todos w
  | POST_root payload =>
      decodable payload = true ->
      status c = 500 /\ (body c = Raw first \/ body c = Raw second)
  | GET_id id =>
      primitive.ObjectIDFromHex id <> None ->
      status c = 200 /\ todos (snd (serve r w)) = todos w
  | PUT_id id payload =>
      primitive.ObjectIDFromHex id <> None -> decodable payload = true ->
      status c = 500 /\ body c = Raw "Internal Server Error"
  | DELETE_id id =>
      primitive.ObjectIDFromHex id <> None ->
      status c = 500 /\ body c = Raw "Internal Server Error"
  end.
Proof.
  intros Hfirst Hsecond. cbv zeta.
  destruct r as [|payload|id|id payload|id].
  - rewrite app_Get_root_hd.
    destruct (retryRead_frame find w) as (Htodos & _).
    rewrite retryRead_hd in *. rewrite Hfirst, Hsecond in *.
    cbn [fst snd option_map status body SendString Status Error] in *.
    split; [reflexivity|]. split; [now right | exact Htodos].
  - intros Hdec.
    destruct (BodyParser (acquire "" payload) new_Todo) as [t [e|]] eqn:Hparse.
    + apply (BodyParser_decodable "") in Hdec. rewrite Hparse in Hdec.
      discriminate.
    + rewrite (app_Post_root_parsed payload w t Hparse), Hfirst.
      split; [reflexivity | now left].
  - intros Hvalid.
    destruct (primitive.ObjectIDFromHex id) as [o|] eqn:Hid; [|contradiction].
    rewrite (app_Get_id_hd id o w Hid).
    destruct (retryRead_frame (findOne (ObjectIDValue o)) w) as (Htodos & _).
    split; [reflexivity | exact Htodos].
  - intros Hvalid Hdec.
    destruct (primitive.ObjectIDFromHex id) as [o|] eqn:Hid; [|contradiction].
    destruct (BodyParser (acquire id payload) new_Todo) as [t [e|]] eqn:Hparse.
    + apply (BodyParser_decodable id) in Hdec. rewrite Hparse in Hdec.
      discriminate.
    + rewrite (app_Put_id_hd id payload w o t Hid Hparse), Hfirst.
      split; reflexivity.
  - intros Hvalid.
    destruct (primitive.ObjectIDFromHex id) as [o|] eqn:Hid; [|contradiction].
    rewrite (app_Delete_id_hd id w o Hid), Hfirst. split; reflexivity.
Qed.

Lemma store_failure_answers_witness :
  status (fst (serve GET_root down_world)) = 500
  /\ body (fst (serve (DELETE_id milk_id) down_world))
     = Raw "Internal Server Error"
  /\ status (fst (serve (GET_id milk_id) down_world)) = 200.
Proof.
  pose proof (store_failure_answers GET_root down_world
                "connection reset by peer" "EOF" eq_refl eq_refl) as Hget.
  pose proof (store_failure_answers (DELETE_id milk_id) down_world
                "connection reset by peer" "EOF" eq_refl eq_refl) as Hdel.
  pose proof (store_failure_answers (GET_id milk_id) down_world
                "connection reset by peer" "EOF" eq_refl eq_refl) as Hone.
  cbv zeta in Hget, Hdel, Hone.
  split; [exact (proj1 Hget)|].
  split; [apply Hdel; discriminate | apply Hone; discriminate].
Defined.

(** ** Creating, then listing *)

(** X14. A record created by [POST /] shows up in [GET /]: when the
    creation is answered 201 with the store answering throughout, the list
    that follows holds the record of the 201 answer and the records held
    before, each once, in an order that is the store's to choose. *)
Theorem post_then_list (payload : option json.Value) (w : World) :
  up 2 w = true ->
  status (fst (serve (POST_root payload) w)) = 201 ->
  exists created : Todo,
    body (fst (serve (POST_root payload) w)) = Encoded (json.Marshal created)
    /\ forall (now : N) (outcomes : list (option string)),
         up 2 (drift now outcomes w) = true ->
         let w' := drift now outcomes (snd (serve (POST_root payload) w)) in
         status (fst (serve GET_root w')) = 200
         /\ exists records : list Todo,
              body (fst (serve GET_root w'))
              = Encoded (json.JArray (map json.Marshal records))
              /\ Permutation records
                             (created :: map decodeDocument (todos w)).
Proof.
  intros Hup H201.
  destruct (BodyParser (acquire "" payload) new_Todo) as [t [e|]] eqn:Hparse.
  { rewrite (app_Post_root_unparsed payload w t e Hparse) in H201.
    discriminate. }
  rewrite (app_Post_root_parsed payload w t Hparse) in *.
  rewrite (up_hd _ _ Hup) in *.
  destruct (existsb _ (todos w)); [discriminate|].
  rewrite retryRead_up by exact (up_tl _ _ Hup).
  eexists. split; [reflexivity|].
  intros now outcomes Hup' w'. subst w'.
  rewrite app_Get_root_hd.
  rewrite retryRead_up by exact (up_hd _ _ Hup').
  cbn [fst snd drift network todos setTodos deliver].
  assert (Hmore : hd None (tl outcomes) = None) by exact (up_tl _ _ Hup').
  rewrite Hmore.
  assert (Hperm : forall l d,
             Permutation (map decodeDocument (l ++ [d]))
                         (decodeDocument d :: map decodeDocument l)).
  { intros l d. rewrite map_app. cbn [map].
    apply Permutation_sym, Permutation_cons_append. }
  destruct (skipn firstBatch _); (split; [reflexivity|]);
    eexists; (split; [reflexivity | apply Hperm]).
Qed.

Lemma post_then_list_witness :
  exists records : list Todo,
    body (fst (serve GET_root (snd (serve (POST_root buy_milk_mine) milk_world))))
    = Encoded (json.JArray (map json.Marshal records))
    /\ List.length records = 2%nat.
Proof.
  destruct (post_then_list buy_milk_mine milk_world eq_refl eq_refl)
    as (created & _ & Hlist).
  destruct (Hlist 1600000000 [] eq_refl) as (_ & records & Hbody & Hperm).
  exists records. split; [exact Hbody|].
  rewrite (Permutation_length Hperm). reflexivity.
Defined.

(** ** Creating from nothing *)

(** X16. [POST /] asks for no field: a body that is [null], or an object
    with no [text] and no [completed] member, when answered 201 has added
    a record with an empty text that is not completed. *)
Theorem post_without_fields (payload : option json.Value) (w : World) :
  payload = Some json.JNull
  \/ (exists members : list (string * json.Value),
         payload = Some (json.JObject members)
         /\ mentions json.F_text members = false
         /\ mentions json.F_completed members = false) ->
  status (fst (serve (POST_root payload) w)) = 201 ->
  exists d : Document,
    todos (snd (serve (POST_root payload) w)) = todos w ++ [d]
    /\ text d = ""
    /\ completed d = false.
Proof.
  intros Hshape H201.
  destruct (BodyParser (acquire "" payload) new_Todo) as [t [e|]] eqn:Hparse.
  { rewrite (app_Post_root_unparsed payload w t e Hparse) in H201.
    discriminate. }
  assert (Ht : Text t = "" /\ Completed t = false).
  { unfold BodyParser, json.Unmarshal in Hparse.
    cbn [request_body acquire] in Hparse.
    destruct Hshape as [->|(members & -> & Htext & Hcompleted)].
    - injection Hparse as <-. split; reflexivity.
    - destruct (object_keeps members (new_Todo, None)) as [H1 H2].
      rewrite Hparse in H1, H2. cbn [fst] in H1, H2.
      split; [exact (H1 Htext) | exact (H2 Hcompleted)]. }
  destruct Ht as [Htext Hcompleted].
  rewrite (app_Post_root_parsed payload w t Hparse) in *.
  destruct (hd None (network w)); [discriminate|].
  destruct (existsb _ (todos w)); [discriminate|].
  cbn [snd].
  match goal with
  | |- context [retryRead ?cmd ?w2] =>
      destruct (retryRead_frame cmd w2) as (Htodos & _)
  end.
  rewrite Htodos. cbn [todos setTodos].
  eexists. split; [reflexivity|]. cbn [text completed].
  split; assumption.
Qed.

Lemma post_without_fields_witness :
  exists d : Document,
    todos (snd (serve (POST_root (Some json.JNull)) milk_world))
    = todos milk_world ++ [d]
    /\ text d = ""
    /\ completed d = false.
Proof.
  apply post_without_fields; [left; reflexivity | reflexivity].
Defined.

Lemma put_keeps_keys_witness :
  map _id (todos (snd (serve (PUT_id milk_id milk_done) milk_world)))
  = map _id (todos milk_world).
Proof.
  exact (proj1 (put_keeps_keys milk_id milk_done milk_world)).
Defined.
